(** * Task manager: the task entity and the task repository

    A shallow embedding of [task_app/models.py] and [task_app/repository.py],
    followed by the properties of the repository that the specification
    states.

    Conventions of the embedding.
    - A Python [str] is a Rocq [string], each character a code point below
      256; a Python [int] is a [Z].
    - Values that come out of [json.load] are terms of [json].  An object is
      the list of the items of the decoded dict, in order.  Number literals
      with a fraction or an exponent (Python floats) are not represented.
    - A Python [dict] is an insertion-ordered association list ([dict]).
    - Exceptions are values of [exn]; a computation that may raise returns
      a [Res].
    - The repository object, the file system and the clock are threaded
      explicitly (monad [M]).  A [Task] held by the repository is a mutable
      object: attribute assignment through a reference obtained from
      [get_task] acts on the collection the moment it is executed
      ([setattr]), so an exception raised later finds the assignment done.
    - The file system is a finite map from paths to files; a path is the
      string that names it, directories are not modelled, and a file that
      holds JSON is the document it encodes ([json.dump] followed by
      [json.load] gives back the documents that [to_dict] builds).
    - What the Python runtime supplies ([date], [datetime], ISO parsing and
      printing, [int] of a string, [repr]) is an interface, [Builtins]; the
      module [CPython] gives the instance used for concrete runs. *)

From stdpp Require Import base option list gmap strings.
From Stdlib Require Import ZArith Lia Ascii String DecimalString Sorted Permutation.

Local Open Scope Z_scope.

(** ** Values read from and written to the backing file *)

#[local] Set Warnings "-register-all".

Inductive json : Type :=
  | JNull
  | JBool (b : bool)
  | JInt (z : Z)
  | JStr (s : string)
  | JList (items : list json)
  | JObj (members : list (string * json)).

(** ** Exceptions *)

Inductive exn : Type :=
  | KeyError (key : json)
  | ValueError
  | TypeError
  | AttributeError
  | JSONDecodeError.

Inductive Res (A : Type) : Type :=
  | Ok (a : A)
  | Raise (e : exn).
Arguments Ok {A} a.
Arguments Raise {A} e.

Definition res_bind {A B} (r : Res A) (k : A -> Res B) : Res B :=
  match r with
  | Ok a => k a
  | Raise e => Raise e
  end.

Declare Scope res_scope.
Delimit Scope res_scope with res.
Notation "'let?' x := r 'in' k" := (res_bind r (fun x => k))
  (at level 10, x name, r at level 100, k at level 200) : res_scope.

(** ** Python dictionaries: insertion-ordered, one binding per key *)

Section Dict.
Context {K V : Type} `{EqDecision K}.

Definition dict := list (K * V).

Fixpoint dict_get (k : K) (d : dict) : option V :=
  match d with
  | [] => None
  | (k', v) :: d' => if decide (k = k') then Some v else dict_get k d'
  end.

(** [d[k] = v]: the binding is replaced where it stands, or appended. *)
Fixpoint dict_set (k : K) (v : V) (d : dict) : dict :=
  match d with
  | [] => [(k, v)]
  | (k', v') :: d' =>
      if decide (k = k') then (k', v) :: d' else (k', v') :: dict_set k v d'
  end.

(** [del d[k]] *)
Fixpoint dict_del (k : K) (d : dict) : dict :=
  match d with
  | [] => []
  | (k', v') :: d' =>
      if decide (k = k') then d' else (k', v') :: dict_del k d'
  end.

(** In-place change of the value bound to [k]. *)
Fixpoint dict_alter (f : V -> V) (k : K) (d : dict) : dict :=
  match d with
  | [] => []
  | (k', v') :: d' =>
      if decide (k = k') then (k', f v') :: d' else (k', v') :: dict_alter f k d'
  end.

Definition dict_keys (d : dict) : list K := map fst d.
Definition dict_values (d : dict) : list V := map snd d.
End Dict.
Arguments dict : clear implicits.

(** ** The parts of the Python runtime the program calls *)

(** [str.strip()] removes the code points for which [str.isspace] holds. *)
Definition isspace (c : ascii) : bool :=
  let n := N_of_ascii c in
  ((9 <=? n) && (n <=? 13) || (28 <=? n) && (n <=? 32)
   || (n =? 133) || (n =? 160))%N.

Fixpoint lstrip (s : string) : string :=
  match s with
  | EmptyString => EmptyString
  | String c s' => if isspace c then lstrip s' else s
  end.

Fixpoint rstrip (s : string) : string :=
  match s with
  | EmptyString => EmptyString
  | String c s' =>
      match rstrip s' with
      | EmptyString => if isspace c then EmptyString else String c EmptyString
      | r => String c r
      end
  end.

Definition strip (s : string) : string := rstrip (lstrip s).

(** Truth value of a string: [bool(s)]. *)
Definition nonempty (s : string) : bool :=
  match s with
  | EmptyString => false
  | String _ _ => true
  end.

(** [bool(v)] *)
Definition py_bool (v : json) : bool :=
  match v with
  | JNull => false
  | JBool b => b
  | JInt z => negb (Z.eqb z 0)
  | JStr s => nonempty s
  | JList items => match items with [] => false | _ => true end
  | JObj members => match members with [] => false | _ => true end
  end.

(** [datetime.date] and [datetime.datetime] values *)
Class Calendar : Type := {
  date : Type;
  datetime : Type;
}.

Class Builtins `{Calendar} : Type := {
  (** [d1 <= d2] *)
  date_le : date -> date -> bool;
  datetime_le : datetime -> datetime -> bool;
  (** [isoformat()] and [fromisoformat(s)]; [None] is [ValueError] *)
  date_isoformat : date -> string;
  date_fromisoformat : string -> option date;
  datetime_isoformat : datetime -> string;
  datetime_fromisoformat : string -> option datetime;
  (** [int(s)] for a string [s]; [None] is [ValueError] *)
  int_of_str : string -> option Z;
  (** [str(v)] for a value [v] that is not a string *)
  repr : json -> string;
}.

(** The sentinel default of [update_task]: an argument is either left out
    or supplied with a value. *)
Inductive arg (A : Type) : Type :=
  | _SENTINEL
  | Supplied (a : A).
Arguments _SENTINEL {A}.
Arguments Supplied {A} a.

Section Program.
Context {cal : Calendar} {rt : Builtins}.

(** [int(v)] *)
Definition py_int (v : json) : Res Z :=
  match v with
  | JInt z => Ok z
  | JBool b => Ok (if b then 1 else 0)
  | JStr s => match int_of_str s with Some z => Ok z | None => Raise ValueError end
  | JNull | JList _ | JObj _ => Raise TypeError
  end.

(** [str(v)] *)
Definition py_str (v : json) : string :=
  match v with
  | JStr s => s
  | _ => repr v
  end.

(** [payload.get(key, default)]: only a dict has the method. *)
Definition py_get (payload : json) (key : string) (default : json) : Res json :=
  match payload with
  | JObj members =>
      Ok (match dict_get key members with Some v => v | None => default end)
  | _ => Raise AttributeError
  end.

(** [payload[key]] on a value on which [.get] has already succeeded. *)
Definition py_getitem (payload : json) (key : string) : Res json :=
  match payload with
  | JObj members =>
      match dict_get key members with
      | Some v => Ok v
      | None => Raise (KeyError (JStr key))
      end
  | _ => Raise TypeError
  end.

(** [date.fromisoformat(v)] and [datetime.fromisoformat(v)] *)
Definition py_date_fromisoformat (v : json) : Res date :=
  match v with
  | JStr s =>
      match date_fromisoformat s with Some d => Ok d | None => Raise ValueError end
  | _ => Raise TypeError
  end.

Definition py_datetime_fromisoformat (v : json) : Res datetime :=
  match v with
  | JStr s =>
      match datetime_fromisoformat s with
      | Some t => Ok t
      | None => Raise ValueError
      end
  | _ => Raise TypeError
  end.

(** ** models.py *)

Record Task : Type := mkTask {
  id : Z;
  title : string;
  description : string;
  completed : bool;
  due_date : option date;
  created_at : datetime;
  updated_at : datetime;
}.

Definition to_dict (self : Task) : json :=
  JObj [ ("id", JInt (id self));
         ("title", JStr (title self));
         ("description", JStr (description self));
         ("completed", JBool (completed self));
         ("due_date", match due_date self with
                      | Some d => JStr (date_isoformat d)
                      | None => JNull
                      end);
         ("created_at", JStr (datetime_isoformat (created_at self)));
         ("updated_at", JStr (datetime_isoformat (updated_at self))) ].

Definition from_dict (payload : json) : Res Task :=
  (let? due := py_get payload "due_date" JNull in
   let? id_ := (let? v := py_getitem payload "id" in py_int v) in
   let? title_ := (let? v := py_getitem payload "title" in Ok (py_str v)) in
   let? description_ :=
     (let? v := py_get payload "description" (JStr EmptyString) in Ok (py_str v)) in
   let? completed_ :=
     (let? v := py_get payload "completed" (JBool false) in Ok (py_bool v)) in
   let? due_date_ :=
     (if py_bool due
      then let? d := py_date_fromisoformat due in Ok (Some d)
      else Ok None) in
   let? created_at_ :=
     (let? v := py_getitem payload "created_at" in py_datetime_fromisoformat v) in
   let? updated_at_ :=
     (let? v := py_getitem payload "updated_at" in py_datetime_fromisoformat v) in
   Ok (mkTask id_ title_ description_ completed_ due_date_
              created_at_ updated_at_))%res.


(** ** repository.py *)

(** Values a caller can pass where the signature says [object]: [None],
    booleans, integers, strings and dates ([datetime] values, which are
    dates to [isinstance], are left out). *)
Inductive pyval : Type :=
  | PyNone
  | PyBool (b : bool)
  | PyInt (z : Z)
  | PyStr (s : string)
  | PyDate (d : date).

Definition truthy (v : pyval) : bool :=
  match v with
  | PyNone => false
  | PyBool b => b
  | PyInt z => negb (Z.eqb z 0)
  | PyStr s => nonempty s
  | PyDate _ => true
  end.

(** [(v or s).strip()] with [s] the empty string: only a string has [strip]. *)
Definition or_empty_strip (v : pyval) : Res string :=
  if truthy v
  then match v with
       | PyStr s => Ok (strip s)
       | _ => Raise AttributeError
       end
  else Ok (strip EmptyString).

(** The backing store: a file holds a JSON document or text that
    [json.load] rejects; [journal] records every write in order. *)
Inductive file : Type :=
  | Unparsable
  | Document (doc : json).

Record World : Type := mkWorld {
  files : gmap string file;
  journal : list (string * json);
  (** [datetime.utcnow()] returns [clock ticks] and advances [ticks] *)
  clock : nat -> datetime;
  ticks : nat;
}.

Record TaskRepository : Type := mkRepo {
  _storage_path : option string;
  _tasks : dict Z Task;
  _next_id : Z;
}.

(** Methods run on the repository object and the world; a raised exception
    keeps whatever had been assigned before it. *)
Definition M (A : Type) : Type :=
  TaskRepository -> World -> Res A * TaskRepository * World.

Definition ret {A} (a : A) : M A := fun self w => (Ok a, self, w).
Definition raise {A} (e : exn) : M A := fun self w => (Raise e, self, w).
Definition bind {A B} (m : M A) (k : A -> M B) : M B :=
  fun self w =>
    match m self w with
    | (Ok a, self', w') => k a self' w'
    | (Raise e, self', w') => (Raise e, self', w')
    end.
Definition lift {A} (r : Res A) : M A := fun self w => (r, self, w).
Definition get_self : M TaskRepository := fun self w => (Ok self, self, w).
Definition put_self (self' : TaskRepository) : M unit :=
  fun _ w => (Ok tt, self', w).
Definition get_world : M World := fun self w => (Ok w, self, w).

Declare Scope m_scope.
Delimit Scope m_scope with M.
Notation "'do' x <- m ; k" := (bind m (fun x => k))
  (at level 10, x name, m at level 100, k at level 200) : m_scope.
Notation "m ;; k" := (bind m (fun _ => k))
  (at level 100, k at level 200, right associativity) : m_scope.

Local Open Scope m_scope.

Fixpoint for_each {A} (items : list A) (body : A -> M unit) : M unit :=
  match items with
  | [] => ret tt
  | item :: rest => body item ;; for_each rest body
  end.

(** *** Effects on the world *)

Definition utcnow : M datetime :=
  fun self w =>
    (Ok (clock w (ticks w)), self,
     mkWorld (files w) (journal w) (clock w) (S (ticks w))).

(** [json.dump(doc, handle)] on a file opened for writing *)
Definition write_json (path : string) (doc : json) : M unit :=
  fun self w =>
    (Ok tt, self,
     mkWorld (<[path := Document doc]> (files w)) (journal w ++ [(path, doc)])
             (clock w) (ticks w)).

(** [path.unlink(missing_ok=True)] *)
Definition unlink (path : string) : M unit :=
  fun self w =>
    (Ok tt, self, mkWorld (delete path (files w)) (journal w) (clock w) (ticks w)).

(** Iterating a decoded document with [for item in payload]. *)
Fixpoint chars (s : string) : list json :=
  match s with
  | EmptyString => []
  | String c s' => JStr (String c EmptyString) :: chars s'
  end.

Definition py_iter (payload : json) : Res (list json) :=
  match payload with
  | JList items => Ok items
  | JObj members => Ok (map JStr (dict_keys members))
  | JStr s => Ok (chars s)
  | JNull | JBool _ | JInt _ => Raise TypeError
  end.

(** *** Assignments to the repository object and to the tasks it holds *)

Definition set_tasks (d : dict Z Task) : M unit :=
  do self <- get_self;
  put_self (mkRepo (_storage_path self) d (_next_id self)).

Definition set_next_id (n : Z) : M unit :=
  do self <- get_self;
  put_self (mkRepo (_storage_path self) (_tasks self) n).

(** [self._tasks[key] = task] *)
Definition setitem (key : Z) (task : Task) : M unit :=
  do self <- get_self;
  set_tasks (dict_set key task (_tasks self)).

(** [task.field = value], where [task] is the object stored under [key] *)
Definition setattr (key : Z) (assign : Task -> Task) : M unit :=
  do self <- get_self;
  set_tasks (dict_alter assign key (_tasks self)).

Definition set_title (v : string) (t : Task) : Task :=
  mkTask (id t) v (description t) (completed t) (due_date t)
         (created_at t) (updated_at t).
Definition set_description (v : string) (t : Task) : Task :=
  mkTask (id t) (title t) v (completed t) (due_date t)
         (created_at t) (updated_at t).
Definition set_completed (v : bool) (t : Task) : Task :=
  mkTask (id t) (title t) (description t) v (due_date t)
         (created_at t) (updated_at t).
Definition set_due_date (v : option date) (t : Task) : Task :=
  mkTask (id t) (title t) (description t) (completed t) v
         (created_at t) (updated_at t).
Definition set_updated_at (v : datetime) (t : Task) : Task :=
  mkTask (id t) (title t) (description t) (completed t) (due_date t)
         (created_at t) v.

(** *** [sorted(tasks, key=lambda item: item.id)]: a stable sort *)

Fixpoint insert_by_id (t : Task) (l : list Task) : list Task :=
  match l with
  | [] => [t]
  | u :: l' => if id t <=? id u then t :: l else u :: insert_by_id t l'
  end.

Fixpoint sorted (l : list Task) : list Task :=
  match l with
  | [] => []
  | t :: l' => insert_by_id t (sorted l')
  end.

(** *** Listing *)

(** [task.completed == completed] *)
Definition completed_is (c : bool) (task : Task) : bool :=
  Bool.eqb (completed task) c.

(** [task.due_date is not None and task.due_date <= due_before] *)
Definition due_by (limit : date) (task : Task) : bool :=
  match due_date task with
  | Some d => date_le d limit
  | None => false
  end.

Definition list_tasks (self : TaskRepository)
    (completed : option bool) (due_before : option date) : list Task :=
  let tasks := dict_values (_tasks self) in
  let tasks :=
    match completed with
    | Some c => List.filter (completed_is c) tasks
    | None => tasks
    end in
  let tasks :=
    match due_before with
    | Some limit => List.filter (due_by limit) tasks
    | None => tasks
    end in
  sorted tasks.

(** *** Persistence helpers *)

(** [max(self._tasks) + 1] over the keys, or 1 for an empty dict *)
Definition next_id_after (keys : list Z) : Z :=
  match keys with
  | [] => 1
  | k :: ks => foldr Z.max k ks + 1
  end.

Definition _load : M unit :=
  do self <- get_self;
  do w <- get_world;
  match _storage_path self with
  | None => ret tt
  | Some path =>
      match files w !! path with
      | None => ret tt
      | Some Unparsable => raise JSONDecodeError
      | Some (Document payload) =>
          do items <- lift (py_iter payload);
          for_each items (fun item =>
            do task <- lift (from_dict item);
            setitem (id task) task) ;;
          do self <- get_self;
          set_next_id (next_id_after (dict_keys (_tasks self)))
      end
  end.

Definition _save : M unit :=
  do self <- get_self;
  match _storage_path self with
  | None => ret tt
  | Some path =>
      let serialised := map to_dict (list_tasks self None None) in
      write_json path (JList serialised)
  end.

Definition __init__ (storage_path : option string) (w : World)
    : Res unit * TaskRepository * World :=
  (match storage_path with
   | Some _ => _load
   | None => ret tt
   end) (mkRepo storage_path [] 1) w.

(** *** CRUD operations *)

Definition add_task (title : string) (description : pyval)
    (due_date : option date) : M Task :=
  let title := strip title in
  if negb (nonempty title) then raise ValueError else
  do now <- utcnow;
  do self <- get_self;
  do description <- lift (or_empty_strip description);
  let task := mkTask (_next_id self) title description false due_date now now in
  setitem (id task) task ;;
  set_next_id (_next_id self + 1) ;;
  _save ;;
  ret task.

Definition get_task (task_id : Z) : M Task :=
  do self <- get_self;
  match dict_get task_id (_tasks self) with
  | Some task => ret task
  | None => raise (KeyError (JInt task_id))
  end.

(** The local [task] of the source is the object stored under [task_id];
    it is read back at the places where the source uses its value. *)
Definition update_task (task_id : Z) (title : option string)
    (description : arg pyval) (due_date : arg pyval)
    (completed : option bool) : M Task :=
  do _ <- get_task task_id;
  let changed := false in
  do changed <-
    match title with
    | Some title =>
        let new_title := strip title in
        if negb (nonempty new_title) then raise ValueError else
        setattr task_id (set_title new_title) ;;
        ret true
    | None => ret changed
    end;
  do changed <-
    match description with
    | Supplied description =>
        do text <- lift (or_empty_strip description);
        setattr task_id (set_description text) ;;
        ret true
    | _SENTINEL => ret changed
    end;
  do changed <-
    match due_date with
    | Supplied due_date =>
        match due_date with
        | PyNone => setattr task_id (set_due_date None)
        | PyDate d => setattr task_id (set_due_date (Some d))
        | _ => raise TypeError
        end ;;
        ret true
    | _SENTINEL => ret changed
    end;
  do changed <-
    match completed with
    | Some completed =>
        setattr task_id (set_completed completed) ;;
        ret true
    | None => ret changed
    end;
  (if changed : bool then
     do now <- utcnow;
     setattr task_id (set_updated_at now) ;;
     do task <- get_task task_id;
     setitem task_id task ;;
     _save
   else ret tt) ;;
  get_task task_id.

Definition delete_task (task_id : Z) : M unit :=
  do self <- get_self;
  match dict_get task_id (_tasks self) with
  | None => raise (KeyError (JInt task_id))
  | Some _ =>
      set_tasks (dict_del task_id (_tasks self)) ;;
      _save
  end.

(** *** Testing helpers *)

Definition clear : M unit :=
  set_tasks [] ;;
  set_next_id 1 ;;
  do self <- get_self;
  match _storage_path self with
  | Some path => unlink path
  | None => ret tt
  end.

End Program.

(** ** A runtime for concrete runs

    Calendar dates and naive timestamps as Python prints and reads them.
    [fromisoformat] is implemented for exactly the shapes [isoformat()]
    emits, [YYYY-MM-DD] and [YYYY-MM-DDTHH:MM:SS] with an optional
    six-digit fraction; UTC offsets are not represented. *)

Module CPython.

Record pydate : Type := mkDate { year : Z; month : Z; day : Z }.

Record pydatetime : Type := mkDateTime {
  on : pydate;
  hour : Z;
  minute : Z;
  second : Z;
  microsecond : Z;
}.

Definition lex (c : comparison) (rest : comparison) : comparison :=
  match c with
  | Eq => rest
  | _ => c
  end.

Definition date_cmp (a b : pydate) : comparison :=
  lex (year a ?= year b) (lex (month a ?= month b) (day a ?= day b)).

Definition datetime_cmp (a b : pydatetime) : comparison :=
  lex (date_cmp (on a) (on b))
   (lex (hour a ?= hour b)
     (lex (minute a ?= minute b)
       (lex (second a ?= second b) (microsecond a ?= microsecond b)))).

Definition not_gt (c : comparison) : bool :=
  match c with
  | Gt => false
  | _ => true
  end.

Definition is_leap (y : Z) : bool :=
  (y mod 4 =? 0) && (negb (y mod 100 =? 0) || (y mod 400 =? 0)).

Definition days_in_month (y m : Z) : Z :=
  if m =? 2 then (if is_leap y then 29 else 28)
  else if (m =? 4) || (m =? 6) || (m =? 9) || (m =? 11) then 30
  else 31.

Definition valid_date (d : pydate) : bool :=
  (1 <=? year d) && (year d <=? 9999) && (1 <=? month d) && (month d <=? 12)
  && (1 <=? day d) && (day d <=? days_in_month (year d) (month d)).

Definition valid_time (h m s us : Z) : bool :=
  (0 <=? h) && (h <? 24) && (0 <=? m) && (m <? 60) && (0 <=? s) && (s <? 60)
  && (0 <=? us) && (us <? 1000000).

(** *** Printing *)

Definition digit (n : Z) : ascii := ascii_of_N (Z.to_N (48 + n mod 10)).

(** [n] as [width] decimal digits, zero-padded: ["%0<width>d"] *)
Fixpoint pad (width : nat) (n : Z) : string :=
  match width with
  | O => EmptyString
  | S w => pad w (n / 10) +:+ String (digit n) EmptyString
  end.

Definition isoformat_date (d : pydate) : string :=
  pad 4 (year d) +:+ "-" +:+ pad 2 (month d) +:+ "-" +:+ pad 2 (day d).

Definition isoformat_datetime (t : pydatetime) : string :=
  isoformat_date (on t) +:+ "T" +:+ pad 2 (hour t) +:+ ":"
  +:+ pad 2 (minute t) +:+ ":" +:+ pad 2 (second t)
  +:+ (if microsecond t =? 0 then EmptyString else "." +:+ pad 6 (microsecond t)).

(** *** Reading *)

Definition digit_of (c : ascii) : option Z :=
  let n := N_of_ascii c in
  if ((48 <=? n) && (n <=? 57))%N then Some (Z.of_N n - 48) else None.

(** Exactly [width] digits, then the rest of the input. *)
Fixpoint take_digits (width : nat) (acc : Z) (s : string) : option (Z * string) :=
  match width with
  | O => Some (acc, s)
  | S w =>
      match s with
      | String c s' =>
          match digit_of c with
          | Some d => take_digits w (acc * 10 + d) s'
          | None => None
          end
      | EmptyString => None
      end
  end.

Definition expect (c : ascii) (s : string) : option string :=
  match s with
  | String c' s' => if decide (c = c') then Some s' else None
  | EmptyString => None
  end.

Definition read_date (s : string) : option (pydate * string) :=
  '(y, s) ← take_digits 4 0 s;
  s ← expect "-" s;
  '(m, s) ← take_digits 2 0 s;
  s ← expect "-" s;
  '(d, s) ← take_digits 2 0 s;
  let value := mkDate y m d in
  if valid_date value then Some (value, s) else None.

Definition fromisoformat_date (s : string) : option pydate :=
  '(d, rest) ← read_date s;
  match rest with
  | EmptyString => Some d
  | _ => None
  end.

Definition fromisoformat_datetime (s : string) : option pydatetime :=
  '(d, s) ← read_date s;
  s ← expect "T" s;
  '(h, s) ← take_digits 2 0 s;
  s ← expect ":" s;
  '(m, s) ← take_digits 2 0 s;
  s ← expect ":" s;
  '(sec, s) ← take_digits 2 0 s;
  '(us, s) ← match s with
             | EmptyString => Some (0, s)
             | _ => s ← expect "." s; take_digits 6 0 s
             end;
  match s with
  | EmptyString =>
      if valid_time h m sec us then Some (mkDateTime d h m sec us) else None
  | _ => None
  end.

(** [int(s)]: surrounding white space, a sign, digits with single
    underscores between them. *)
Fixpoint read_digits (acc : Z) (after_digit : bool) (s : string) : option Z :=
  match s with
  | EmptyString => if after_digit then Some acc else None
  | String c s' =>
      if decide (c = "_"%char)
      then (if after_digit then read_digits acc false s' else None)
      else match digit_of c with
           | Some d => read_digits (acc * 10 + d) true s'
           | None => None
           end
  end.

Definition int_of_string (s : string) : option Z :=
  match strip s with
  | String "+" s' => read_digits 0 false s'
  | String "-" s' => Z.opp <$> read_digits 0 false s'
  | s' => read_digits 0 false s'
  end.

(** *** [repr] *)

Definition repr_int (z : Z) : string :=
  DecimalString.NilZero.string_of_int (Z.to_int z).

Definition hex_digit (n : N) : ascii :=
  ascii_of_N (if (n <? 10)%N then 48 + n else 87 + n)%N.

Fixpoint contains (c : ascii) (s : string) : bool :=
  match s with
  | EmptyString => false
  | String c' s' => if decide (c = c') then true else contains c s'
  end.

Definition printable (n : N) : bool :=
  ((32 <=? n) && (n <? 127) || (160 <? n) && negb (n =? 173))%N.

Fixpoint escape (quote : ascii) (s : string) : string :=
  match s with
  | EmptyString => EmptyString
  | String c s' =>
      let n := N_of_ascii c in
      (if decide (c = quote) then String "\" (String c EmptyString)
       else if decide (c = "\"%char) then "\\"
       else if (n =? 9)%N then "\t"
       else if (n =? 10)%N then "\n"
       else if (n =? 13)%N then "\r"
       else if printable n then String c EmptyString
       else String "\" (String "x" (String (hex_digit (n / 16))
                                      (String (hex_digit (n mod 16)) EmptyString))))
      +:+ escape quote s'
  end.

Definition dquote : ascii := ascii_of_N 34.

Definition repr_str (s : string) : string :=
  let quote : ascii :=
    if contains "'" s && negb (contains dquote s) then dquote else "'"%char in
  String quote (escape quote s) +:+ String quote EmptyString.

Fixpoint join (sep : string) (parts : list string) : string :=
  match parts with
  | [] => EmptyString
  | [p] => p
  | p :: rest => p +:+ sep +:+ join sep rest
  end.

Fixpoint repr_json (v : json) : string :=
  match v with
  | JNull => "None"
  | JBool b => if b then "True" else "False"
  | JInt z => repr_int z
  | JStr s => repr_str s
  | JList items => "[" +:+ join ", " (map repr_json items) +:+ "]"
  | JObj members =>
      "{" +:+ join ", " (map (fun kv => repr_str (fst kv) +:+ ": "
                                        +:+ repr_json (snd kv)) members)
      +:+ "}"
  end.

#[global] Instance calendar : Calendar := {|
  date := pydate;
  datetime := pydatetime;
|}.

#[global] Instance runtime : Builtins := {|
  date_le a b := not_gt (date_cmp a b);
  datetime_le a b := not_gt (datetime_cmp a b);
  date_isoformat := isoformat_date;
  date_fromisoformat := fromisoformat_date;
  datetime_isoformat := isoformat_datetime;
  datetime_fromisoformat := fromisoformat_datetime;
  int_of_str := int_of_string;
  repr := repr_json;
|}.

End CPython.

(** ** Sample states for concrete runs *)

Module Sample.
Import CPython.

Definition noon (s us : Z) : pydatetime :=
  mkDateTime (mkDate 2024 5 20) 12 0 s us.

(** A clock that advances one microsecond per reading. *)
Definition wall_clock (n : nat) : pydatetime := noon 0 (Z.of_nat n).

Definition empty_world : World := mkWorld ∅ [] wall_clock 0.

Definition report : Task :=
  mkTask 1 "Prepare report" "Collect metrics" false
         (Some (mkDate 2024 6 1)) (noon 0 0) (noon 0 0).

Definition release : Task :=
  mkTask 2 "Plan release" EmptyString true None (noon 1 250) (noon 7 0).

Definition report_members : list (string * json) :=
  [ ("id", JInt 1); ("title", JStr "Prepare report");
    ("description", JStr "Collect metrics"); ("completed", JBool false);
    ("due_date", JStr "2024-06-01");
    ("created_at", JStr "2024-05-20T12:00:00");
    ("updated_at", JStr "2024-05-20T12:00:00") ].

Definition release_members : list (string * json) :=
  [ ("id", JInt 2); ("title", JStr "Plan release");
    ("description", JStr EmptyString); ("completed", JBool true);
    ("due_date", JNull);
    ("created_at", JStr "2024-05-20T12:00:01.000250");
    ("updated_at", JStr "2024-05-20T12:00:07") ].

(** A record written by hand, last updated a day before it was created. *)
Definition backdated_members : list (string * json) :=
  [ ("id", JInt 1); ("title", JStr "Prepare report");
    ("created_at", JStr "2024-05-20T12:00:00");
    ("updated_at", JStr "2024-05-19T12:00:00") ].

Definition backdated : Task :=
  mkTask 1 "Prepare report" EmptyString false None
         (noon 0 0) (mkDateTime (mkDate 2024 5 19) 12 0 0 0).

Definition backdated_world : World :=
  mkWorld {[ "tasks.json" := Document (JList [JObj backdated_members]) ]}
          [] wall_clock 0.

(** A world whose backing file holds the two records. *)
Definition saved_world : World :=
  mkWorld {[ "tasks.json" :=
               Document (JList [JObj report_members; JObj release_members]) ]}
          [] wall_clock 0.

Definition loaded : TaskRepository :=
  mkRepo (Some "tasks.json") [(1, report); (2, release)] 3.

Definition one_task : TaskRepository :=
  mkRepo (Some "tasks.json") [(1, report)] 2.

Definition two_tasks : TaskRepository :=
  mkRepo (Some "tasks.json") [(2, release); (1, report)] 3.

End Sample.

(** ** main.py

    The command-line layer, from the parsed arguments on: [argparse], which
    builds them, is a library.  What a handler prints is the list of lines
    it returns; a line is a text of Unicode code points, since the messages
    are not Latin-1.  No handler prints before a call that can raise. *)

Definition text : Type := list N.

(** A string of the program as text. *)
Definition of_str (s : string) : text :=
  map N_of_ascii (list_ascii_of_string s).

(** A string literal of the source, written here as in the source file and
    read as UTF-8: [pending] bytes of the current code point are still to
    come, [acc] holds its bits read so far. *)
Fixpoint utf8 (pending : nat) (acc : N) (s : string) : text :=
  match s with
  | EmptyString => []
  | String c s' =>
      let b := N_of_ascii c in
      match pending with
      | O =>
          if (b <? 128)%N then b :: utf8 0 0 s'
          else if (b <? 224)%N then utf8 1 (b - 192) s'
          else if (b <? 240)%N then utf8 2 (b - 224) s'
          else utf8 3 (b - 240) s'
      | S O => (acc * 64 + (b - 128))%N :: utf8 0 0 s'
      | S n => utf8 n (acc * 64 + (b - 128)) s'
      end
  end.

Definition literal (s : string) : text := utf8 0 0 s.

Module main.

Declare Scope cli_scope.
Notation "'do' x <- m ; k" := (bind m (fun x => k))
  (at level 10, x name, m at level 100, k at level 200) : cli_scope.
Notation "m ;; k" := (bind m (fun _ => k))
  (at level 100, k at level 200, right associativity) : cli_scope.

Section Handlers.
Context {cal : Calendar} {rt : Builtins}.
Local Open Scope cli_scope.

(** The attributes that [parse_args] sets for each sub-command. *)
Inductive subcommand : Type :=
  | Cmd_list (completed : string) (due_before : option date)
  | Cmd_add (title : string) (description : string) (due_date : option date)
  | Cmd_update (task_id : Z) (title : option string)
      (description : option string) (clear_description : bool)
      (due_date : option date) (clear_due : bool)
  | Cmd_complete (task_id : Z) (undo : bool)
  | Cmd_delete (task_id : Z).

Record Namespace : Type := mkNamespace {
  storage : string;
  command : subcommand;
}.

(** [str(n)] for an integer *)
Definition str_int (n : Z) : text := of_str (repr (JInt n)).

Definition format_task (task : Task) : text :=
  let due :=
    match due_date task with
    | Some d => of_str (date_isoformat d)
    | None => literal "—"
    end in
  let status := if completed task then literal "✓" else literal "✗" in
  let description :=
    if nonempty (description task)
    then literal " — " ++ of_str (description task)
    else [] in
  literal "[" ++ str_int (id task) ++ literal "] " ++ of_str (title task)
  ++ literal " (due: " ++ due ++ literal ") [" ++ status ++ literal "]"
  ++ description.

Definition list_tasks (args_completed : string) (args_due_before : option date)
    : M (list text) :=
  let completed :=
    if String.eqb args_completed "yes" then Some true
    else if String.eqb args_completed "no" then Some false
    else None in
  do repository <- get_self;
  let tasks := list_tasks repository completed args_due_before in
  match tasks with
  | [] => ret [literal "Список задач пуст."]
  | _ => ret (map format_task tasks)
  end.

Definition add_task (args_title args_description : string)
    (args_due_date : option date) : M (list text) :=
  do task <- add_task args_title (PyStr args_description) args_due_date;
  ret [literal "Создана задача #" ++ str_int (id task) ++ literal ": "
       ++ of_str (title task)].

(** Placed before [update_task] of this module, whose name hides the method
    of the repository that both call. *)
Definition set_status (args_task_id : Z) (args_undo : bool) : M (list text) :=
  do task <- update_task args_task_id None _SENTINEL _SENTINEL
                         (Some (negb args_undo));
  let state :=
    if completed task then literal "выполнена"
    else literal "возвращена в работу" in
  ret [literal "Задача #" ++ str_int (id task) ++ literal " " ++ state
       ++ literal "."].

(** The entries of [kwargs]; an entry that is left out takes the default of
    the method. *)
Definition kwargs_description (args_description : option string)
    (args_clear_description : bool) : arg pyval :=
  if args_clear_description then Supplied (PyStr EmptyString)
  else match args_description with
       | Some d => Supplied (PyStr d)
       | None => _SENTINEL
       end.

Definition kwargs_due_date (args_due_date : option date)
    (args_clear_due : bool) : arg pyval :=
  if args_clear_due then Supplied PyNone
  else match args_due_date with
       | Some d => Supplied (PyDate d)
       | None => _SENTINEL
       end.

Definition update_task (args_task_id : Z) (args_title : option string)
    (args_description : option string) (args_clear_description : bool)
    (args_due_date : option date) (args_clear_due : bool) : M (list text) :=
  let kw_description := kwargs_description args_description args_clear_description in
  let kw_due_date := kwargs_due_date args_due_date args_clear_due in
  match args_title, kw_description, kw_due_date with
  | None, _SENTINEL, _SENTINEL => ret [literal "Нет изменений для применения."]
  | _, _, _ =>
      do task <- update_task args_task_id args_title kw_description kw_due_date
                             None;
      ret [literal "Задача #" ++ str_int (id task) ++ literal " обновлена."]
  end.

Definition delete_task (args_task_id : Z) : M (list text) :=
  delete_task args_task_id ;;
  ret [literal "Задача #" ++ str_int args_task_id ++ literal " удалена."].

(** [str(exc)] for the [ValueError] and the [TypeError] that the methods of
    the repository raise.  The decoder's error, which the [except] clause of
    [main] would catch as a [ValueError], is raised by no method called
    inside the [try]; its message is left empty. *)
Definition str_exc (e : exn) : text :=
  match e with
  | ValueError => literal "Task title must not be empty."
  | TypeError => literal "due_date must be a date object or None."
  | _ => []
  end.

Definition handler (c : subcommand) : M (list text) :=
  match c with
  | Cmd_list completed due_before => list_tasks completed due_before
  | Cmd_add title description due_date => add_task title description due_date
  | Cmd_update task_id title description clear_description due_date clear_due =>
      update_task task_id title description clear_description due_date clear_due
  | Cmd_complete task_id undo => set_status task_id undo
  | Cmd_delete task_id => delete_task task_id
  end.

(** [main] on parsed arguments: the exit code, or the exception that
    escapes; the lines written to standard output and to standard error;
    the world afterwards.  The repository is constructed outside the
    [try]. *)
Definition main (args : Namespace) (w : World)
    : Res Z * list text * list text * World :=
  match __init__ (Some (storage args)) w with
  | (Raise e, _, w') => (Raise e, [], [], w')
  | (Ok _, repository, w') =>
      match handler (command args) repository w' with
      | (Ok out, _, w'') => (Ok 0, out, [], w'')
      | (Raise (KeyError task_id), _, w'') =>
          (Ok 1, [],
           [literal "Ошибка: задача с идентификатором "
            ++ of_str (py_str task_id) ++ literal " не найдена."], w'')
      | (Raise ((ValueError | TypeError | JSONDecodeError) as exc), _, w'') =>
          (Ok 1, [], [literal "Ошибка: " ++ str_exc exc], w'')
      | (Raise AttributeError, _, w'') => (Raise AttributeError, [], [], w'')
      end
  end.

End Handlers.
End main.

(** * Vocabulary of the properties *)

Section Vocabulary.
Context {cal : Calendar} {rt : Builtins}.

(** Ascending order of [id]. *)
Definition by_id (a b : Task) : Prop := id a <= id b.

(** Pre- and postconditions on the repository object and the world, for
    every outcome of a call. *)
Definition hoare {A} (P : TaskRepository -> World -> Prop) (m : M A)
    (Q : Res A -> TaskRepository -> World -> Prop) : Prop :=
  forall self w, P self w ->
    match m self w with
    | (r, self', w') => Q r self' w'
    end.

(** [stable I m]: [m] keeps [I] whether it returns or raises. *)
Definition stable {A} (I : TaskRepository -> World -> Prop) (m : M A) : Prop :=
  hoare I m (fun _ => I).

(** [self] is [self0] with [f] applied to the task stored under [task_id]. *)
Definition altered_by (f : Task -> Task) (task_id : Z)
    (self0 self : TaskRepository) : Prop :=
  self = mkRepo (_storage_path self0) (dict_alter f task_id (_tasks self0))
                (_next_id self0).

(** What [update_task] may do to a task when the clock reads [now]. *)
Definition touch_only (now : datetime) (f : Task -> Task) : Prop :=
  forall t, id (f t) = id t /\ created_at (f t) = created_at t
            /\ (updated_at (f t) = updated_at t \/ updated_at (f t) = now).

(** The collection binds each key once, as a Python dict does, and binds
    it to a task that has the key as its [id]. *)
Definition keyed_by_id (d : dict Z Task) : Prop :=
  NoDup (dict_keys d) /\ Forall (fun kv => id (snd kv) = fst kv) d.

(** The invariant of the repository object: a collection keyed by id and
    a counter above every key. *)
Definition repo_ok (self : TaskRepository) : Prop :=
  keyed_by_id (_tasks self)
  /\ Forall (fun k => k < _next_id self) (dict_keys (_tasks self)).

(** [fromisoformat] gives back the dates and timestamps of [t] from their
    [isoformat()] text, which is not the empty string. *)
Definition iso_faithful (t : Task) : Prop :=
  match due_date t with
  | Some d =>
      nonempty (date_isoformat d) = true
      /\ date_fromisoformat (date_isoformat d) = Some d
  | None => True
  end
  /\ datetime_fromisoformat (datetime_isoformat (created_at t)) = Some (created_at t)
  /\ datetime_fromisoformat (datetime_isoformat (updated_at t)) = Some (updated_at t).

(** A change of [title] and [description] at most. *)
Definition title_description_only (f : Task -> Task) : Prop :=
  forall t, id (f t) = id t /\ completed (f t) = completed t
            /\ due_date (f t) = due_date t
            /\ created_at (f t) = created_at t /\ updated_at (f t) = updated_at t.

(** *** Stages of a call of [update_task] on [task_id], started on the
    repository [self0] in the world [w0] *)

(** Before the clock is read: the world is as at the call and the
    addressed task has been changed in fields other than [id],
    [created_at] and [updated_at]. *)
Definition editing_at (task_id : Z) (self0 : TaskRepository) (w0 : World)
    (self : TaskRepository) (w : World) : Prop :=
  w = w0 /\
  exists f, (forall t, id (f t) = id t /\ created_at (f t) = created_at t
                       /\ updated_at (f t) = updated_at t)
            /\ altered_by f task_id self0 self.

(** At the end: as [touch_only] says. *)
Definition touched_at (task_id : Z) (self0 : TaskRepository) (w0 : World)
    (self : TaskRepository) (_ : World) : Prop :=
  exists f, touch_only (clock w0 (ticks w0)) f /\ altered_by f task_id self0 self.

(** Up to the check of [due_date]: the addressed task exists, the world is
    as at the call, and the task has changed in title and description at
    most. *)
Definition checking_at (task_id : Z) (self0 : TaskRepository) (w0 : World)
    (self : TaskRepository) (w : World) : Prop :=
  w = w0 /\ is_Some (dict_get task_id (_tasks self0)) /\
  exists f, title_description_only f /\ altered_by f task_id self0 self.

(** After that check: the addressed task exists, and nothing raises any
    more. *)
Definition applying_at (task_id : Z)
    (self : TaskRepository) (_ : World) : Prop :=
  is_Some (dict_get task_id (_tasks self)).

(** [updated_at >= created_at] *)
Definition ordered (t : Task) : Prop :=
  datetime_le (created_at t) (updated_at t) = true.

(** *** Callers *)

(** A series of [add_task] calls on one repository, each with its own
    arguments; a call that raises is caught and the series goes on.  The
    result is the outcome of every call, in call order. *)
Fixpoint add_tasks (calls : list (string * pyval * option date))
    (self : TaskRepository) (w : World) : list (Res Task) :=
  match calls with
  | [] => []
  | (title, description, due_date) :: rest =>
      match add_task title description due_date self w with
      | (r, self', w') => r :: add_tasks rest self' w'
      end
  end.

(** The ids of the tasks the successful calls returned. *)
Fixpoint returned_ids (outcomes : list (Res Task)) : list Z :=
  match outcomes with
  | [] => []
  | Ok task :: rest => id task :: returned_ids rest
  | Raise _ :: rest => returned_ids rest
  end.

(** Any series of mutating calls. *)
Inductive call : Type :=
  | CallAdd (title : string) (description : pyval) (due_date : option date)
  | CallUpdate (task_id : Z) (title : option string)
      (description due_date : arg pyval) (completed : option bool)
  | CallDelete (task_id : Z)
  | CallClear.

Definition state_after {A} (m : M A) (self : TaskRepository) (w : World)
    : TaskRepository * World :=
  match m self w with
  | (_, self', w') => (self', w')
  end.

Definition perform (c : call) : TaskRepository -> World -> TaskRepository * World :=
  match c with
  | CallAdd title description due_date =>
      state_after (add_task title description due_date)
  | CallUpdate task_id title description due_date completed =>
      state_after (update_task task_id title description due_date completed)
  | CallDelete task_id => state_after (delete_task task_id)
  | CallClear => state_after clear
  end.

Fixpoint perform_all (calls : list call) (self : TaskRepository) (w : World)
    : TaskRepository * World :=
  match calls with
  | [] => (self, w)
  | c :: rest =>
      match perform c self w with
      | (self', w') => perform_all rest self' w'
      end
  end.

End Vocabulary.

(** * Vocabulary of the further properties *)

Section MoreVocabulary.
Context {cal : Calendar} {rt : Builtins}.

(** The backing file of [self], when it has one, holds the serialised
    listing of its collection. *)
Definition in_sync (self : TaskRepository) (w : World) : Prop :=
  match _storage_path self with
  | Some path =>
      files w !! path
      = Some (Document (JList (map to_dict (list_tasks self None None))))
  | None => True
  end.

(** The repository has the storage path [sp]; the files other than the one
    at [sp], and every file and the journal when [sp] is no path, are as in
    [w0]; the clock is the one of [w0]. *)
Definition own_file (sp : option string) (w0 : World)
    (self : TaskRepository) (w : World) : Prop :=
  _storage_path self = sp
  /\ (forall q, sp <> Some q -> files w !! q = files w0 !! q)
  /\ (sp = None -> files w = files w0 /\ journal w = journal w0)
  /\ clock w = clock w0.

(** Whether a call of [update_task] supplies a field at all. *)
Definition any_supplied (title : option string) (description due_date : arg pyval)
    (completed : option bool) : bool :=
  match title, description, due_date, completed with
  | None, _SENTINEL, _SENTINEL, None => false
  | _, _, _, _ => true
  end.

(** The last task of [tasks] that has the id [k]. *)
Fixpoint last_with_id (k : Z) (tasks : list Task) : option Task :=
  match tasks with
  | [] => None
  | t :: rest =>
      match last_with_id k rest with
      | Some u => Some u
      | None => if id t =? k then Some t else None
      end
  end.

(** The tasks that a list of records reads as, when every record reads. *)
Fixpoint read_all (items : list json) : Res (list Task) :=
  match items with
  | [] => Ok []
  | item :: rest =>
      res_bind (from_dict item) (fun t =>
      res_bind (read_all rest) (fun ts => Ok (t :: ts)))
  end.

(** What a handler that raises has done, and why it raised. *)
Definition cause (c : main.subcommand) (self : TaskRepository) (e : exn)
    : Prop :=
  match c with
  | main.Cmd_list _ _ => False
  | main.Cmd_add title _ _ => e = ValueError /\ strip title = EmptyString
  | main.Cmd_update task_id title _ _ _ _ =>
      match dict_get task_id (_tasks self) with
      | None => e = KeyError (JInt task_id)
      | Some _ => e = ValueError
                  /\ exists s, title = Some s /\ strip s = EmptyString
      end
  | main.Cmd_complete task_id _ | main.Cmd_delete task_id =>
      e = KeyError (JInt task_id) /\ dict_get task_id (_tasks self) = None
  end.

End MoreVocabulary.

(** Further fixtures. *)
Module MoreSample.
Import CPython.

Definition docs : Task :=
  mkTask 2 "Write docs" "today" false None (Sample.noon 0 0) (Sample.noon 0 0).

Definition first_of_july : date := mkDate 2024 7 1.

(** A backing file that holds a number. *)
Definition scalar_world : World :=
  mkWorld {[ "tasks.json" := Document (JInt 5) ]} [] Sample.wall_clock 0.

(** A backing file whose second record has no title. *)
Definition broken_world : World :=
  mkWorld {[ "tasks.json" :=
               Document (JList ([JObj Sample.report_members]
                                ++ JObj [("id", JInt 2)]
                                   :: [JObj Sample.release_members])) ]}
          [] Sample.wall_clock 0.

Definition second_report : Task :=
  mkTask 1 "Prepare report again" "Collect metrics" false
         (Some (mkDate 2024 6 1)) (Sample.noon 0 0) (Sample.noon 0 0).

(** A backing file with two records of the id 1. *)
Definition duplicate_world : World :=
  mkWorld {[ "tasks.json" :=
               Document (JList [JObj Sample.report_members;
                                JObj (dict_set "title"
                                        (JStr "Prepare report again")
                                        Sample.report_members)]) ]}
          [] Sample.wall_clock 0.

End MoreSample.


(** * Properties *)

Section DictFacts.
Context {K V : Type} `{EqDecision K}.
Implicit Types (d : dict K V) (k : K) (v : V).

Lemma dict_get_set_eq k v d : dict_get k (dict_set k v d) = Some v.
Proof.
  induction d as [|[k' v'] d IH]; simpl.
  - by rewrite decide_True.
  - destruct (decide (k = k')) as [->|Hne]; simpl.
    + by rewrite decide_True.
    + by rewrite decide_False.
Qed.

Lemma dict_get_set_ne k k' v d :
  k ≠ k' -> dict_get k' (dict_set k v d) = dict_get k' d.
Proof.
  intros Hne. induction d as [|[k0 v0] d IH]; simpl.
  - rewrite decide_False; [done | by intros ->].
  - destruct (decide (k = k0)) as [->|Hk]; simpl.
    + rewrite !decide_False; [done | by intros -> ..].
    + destruct (decide (k' = k0)); [done | apply IH].
Qed.

Lemma dict_get_None k d : dict_get k d = None <-> k ∉ dict_keys d.
Proof.
  induction d as [|[k' v'] d IH]; simpl.
  - split; [intros _; apply not_elem_of_nil | done].
  - rewrite not_elem_of_cons. destruct (decide (k = k')) as [->|Hne].
    + split; [done | by intros [? _]].
    + rewrite IH. tauto.
Qed.

Lemma dict_get_Some k v d : dict_get k d = Some v -> (k, v) ∈ d.
Proof.
  induction d as [|[k' v'] d IH]; simpl; [done|].
  destruct (decide (k = k')) as [->|Hne].
  - intros [= ->]. apply list_elem_of_here.
  - intros Hget. apply list_elem_of_further, IH, Hget.
Qed.

(** Assigning to a key that is not bound appends the binding. *)
Lemma dict_set_fresh k v d : k ∉ dict_keys d -> dict_set k v d = d ++ [(k, v)].
Proof.
  induction d as [|[k' v'] d IH]; simpl; [done|].
  rewrite not_elem_of_cons. intros [Hne Hnotin].
  rewrite decide_False by done. by rewrite IH.
Qed.

(** Assigning to a bound key keeps the keys and their order. *)
Lemma dict_keys_set_bound k v d :
  k ∈ dict_keys d -> dict_keys (dict_set k v d) = dict_keys d.
Proof.
  induction d as [|[k' v'] d IH]; simpl.
  - by intros ?%elem_of_nil.
  - destruct (decide (k = k')) as [->|Hne]; [done|].
    intros [?|Hin]%elem_of_cons; [done|]. simpl. by rewrite IH.
Qed.

Lemma dict_keys_alter f k d : dict_keys (dict_alter f k d) = dict_keys d.
Proof.
  induction d as [|[k' v'] d IH]; simpl; [done|].
  destruct (decide (k = k')); simpl; [done | by rewrite IH].
Qed.

Lemma dict_alter_compose (f g : V -> V) k d :
  dict_alter g k (dict_alter f k d) = dict_alter (fun x => g (f x)) k d.
Proof.
  induction d as [|[k' v'] d IH]; simpl; [done|].
  destruct (decide (k = k')) as [->|Hne]; simpl.
  - by rewrite decide_True.
  - rewrite decide_False by done. by rewrite IH.
Qed.

Lemma dict_alter_same k d : dict_alter (fun x => x) k d = d.
Proof.
  induction d as [|[k' v'] d IH]; simpl; [done|].
  destruct (decide (k = k')); [done | by rewrite IH].
Qed.

Lemma dict_set_same k v d : dict_get k d = Some v -> dict_set k v d = d.
Proof.
  induction d as [|[k' v'] d IH]; simpl; [done|].
  destruct (decide (k = k')) as [->|Hne].
  - by intros [= ->].
  - intros Hget. by rewrite IH.
Qed.

Lemma dict_get_alter_eq (f : V -> V) k d :
  dict_get k (dict_alter f k d) = f <$> dict_get k d.
Proof.
  induction d as [|[k' v'] d IH]; simpl; [done|].
  destruct (decide (k = k')) as [->|Hne]; simpl.
  - by rewrite decide_True.
  - by rewrite decide_False.
Qed.

Lemma dict_set_keys k v d :
  dict_keys (dict_set k v d)
  = if decide (k ∈ dict_keys d) then dict_keys d else dict_keys d ++ [k].
Proof.
  destruct (decide (k ∈ dict_keys d)) as [Hin|Hnotin].
  - by apply dict_keys_set_bound.
  - rewrite dict_set_fresh by done. unfold dict_keys. by rewrite map_app.
Qed.

Lemma dict_set_NoDup k v d :
  NoDup (dict_keys d) -> NoDup (dict_keys (dict_set k v d)).
Proof.
  intros Hnodup. rewrite dict_set_keys.
  destruct (decide (k ∈ dict_keys d)) as [Hin|Hnotin]; [done|].
  apply NoDup_app. split; [done|]. split; [|apply NoDup_singleton].
  intros x Hx ->%list_elem_of_singleton. done.
Qed.

Lemma dict_set_Forall (P : K * V -> Prop) k v d :
  P (k, v) -> Forall P d -> Forall P (dict_set k v d).
Proof.
  intros HP. induction 1 as [|[k' v'] d Hhead Htail IH]; simpl.
  - by constructor.
  - destruct (decide (k = k')) as [->|Hne]; by constructor.
Qed.

Lemma dict_alter_Forall (P : K * V -> Prop) (f : V -> V) k d :
  (forall v, P (k, v) -> P (k, f v)) -> Forall P d -> Forall P (dict_alter f k d).
Proof.
  intros Hf. induction 1 as [|[k' v'] d Hhead Htail IH]; simpl.
  - constructor.
  - destruct (decide (k = k')) as [->|Hne]; constructor; auto.
Qed.

Lemma dict_alter_Forall_get (P : K * V -> Prop) (f : V -> V) k d :
  (forall v, dict_get k d = Some v -> P (k, v) -> P (k, f v)) ->
  Forall P d -> Forall P (dict_alter f k d).
Proof.
  intros Hf Hall. revert Hf.
  induction Hall as [|[k' v'] d Hhead Htail IH]; simpl; intros Hf.
  - constructor.
  - destruct (decide (k = k')) as [->|Hne]; constructor; auto.
Qed.

Lemma dict_del_keys_sublist k d : sublist (dict_keys (dict_del k d)) (dict_keys d).
Proof.
  induction d as [|[k' v'] d IH]; simpl; [done|].
  destruct (decide (k = k')); simpl.
  - by apply sublist_cons.
  - by apply sublist_skip.
Qed.

Lemma dict_values_keys_map {B} (f : V -> B) (g : K -> B) d :
  Forall (fun kv => f (snd kv) = g (fst kv)) d ->
  map f (dict_values d) = map g (dict_keys d).
Proof.
  induction 1 as [|[k v] d Hhead Htail IH]; simpl; [done|].
  simpl in Hhead. by rewrite Hhead, IH.
Qed.

Lemma dict_del_sublist k d : sublist (dict_del k d) d.
Proof.
  induction d as [|[k' v'] d IH]; simpl; [done|].
  destruct (decide (k = k')).
  - by apply sublist_cons.
  - by apply sublist_skip.
Qed.
End DictFacts.

(** Unfolding of the plumbing of [M], leaving the program's own tests. *)
Ltac run_m :=
  cbv beta iota zeta delta
    [bind ret raise lift get_self put_self get_world
     set_tasks set_next_id setitem setattr get_task].

Section Properties.
Context {cal : Calendar} {rt : Builtins}.

(** ** Reasoning about methods *)

Lemma hoare_bind {A B} P Q R (m : M A) (k : A -> M B) :
  hoare P m Q ->
  (forall a, hoare (Q (Ok a)) (k a) R) ->
  (forall e self w, Q (Raise e) self w -> R (Raise e) self w) ->
  hoare P (bind m k) R.
Proof.
  intros Hm Hk Hraise self w HP. unfold bind.
  specialize (Hm self w HP). destruct (m self w) as [[[a|e] self'] w'].
  - by apply Hk.
  - by apply Hraise.
Qed.

Lemma hoare_weaken {A} (P P' : TaskRepository -> World -> Prop) (m : M A) Q Q' :
  hoare P' m Q' ->
  (forall self w, P self w -> P' self w) ->
  (forall r self w, Q' r self w -> Q r self w) ->
  hoare P m Q.
Proof.
  intros Hm Hpre Hpost self w HP. specialize (Hm self w (Hpre _ _ HP)).
  destruct (m self w) as [[r self'] w']. by apply Hpost.
Qed.

Lemma stable_bind {A B} I (m : M A) (k : A -> M B) :
  stable I m -> (forall a, stable I (k a)) -> stable I (bind m k).
Proof. intros Hm Hk. by apply (hoare_bind I (fun _ => I)). Qed.

Lemma stable_ret {A} I (a : A) : stable I (ret a).
Proof. by intros self w HI. Qed.

Lemma stable_raise {A} I (e : exn) : stable I (@raise _ A e).
Proof. by intros self w HI. Qed.

Lemma stable_lift {A} I (r : Res A) : stable I (lift r).
Proof. by intros self w HI. Qed.

Lemma stable_get_self I : stable I get_self.
Proof. by intros self w HI. Qed.

Lemma stable_get_world I : stable I get_world.
Proof. by intros self w HI. Qed.

Lemma stable_for_each {A} I (items : list A) (body : A -> M unit) :
  (forall item, stable I (body item)) -> stable I (for_each items body).
Proof.
  intros Hbody. induction items as [|item items IH]; simpl.
  - apply stable_ret.
  - apply stable_bind; [apply Hbody | intros _; apply IH].
Qed.

(** An invariant of the repository object alone is not affected by the
    steps that act on the world. *)
Lemma stable_utcnow (I : TaskRepository -> Prop) : stable (fun self _ => I self) utcnow.
Proof. by intros self w HI. Qed.

Lemma stable_save (I : TaskRepository -> Prop) : stable (fun self _ => I self) _save.
Proof.
  intros self w HI. unfold _save. run_m.
  by destruct (_storage_path self).
Qed.

Lemma stable_get_task I (task_id : Z) : stable I (get_task task_id).
Proof.
  intros self w HI. run_m. by destruct (dict_get task_id (_tasks self)).
Qed.

(** ** What [update_task] can change *)

Section UpdateFrame.
Context (task_id : Z) (self0 : TaskRepository) (w0 : World).

Local Abbreviation editing := (editing_at task_id self0 w0).
Local Abbreviation touched := (touched_at task_id self0 w0).

Lemma setattr_editing (g : Task -> Task) :
  (forall t, id (g t) = id t /\ created_at (g t) = created_at t
             /\ updated_at (g t) = updated_at t) ->
  stable editing (setattr task_id g).
Proof.
  intros Hg self w [-> (f & Hf & ->)]. run_m. simpl.
  split; [done|]. exists (fun t => g (f t)). split.
  - intros t. destruct (Hg (f t)) as (-> & -> & ->). apply Hf.
  - unfold altered_by. by rewrite dict_alter_compose.
Qed.

Lemma editing_touched self w : editing self w -> touched self w.
Proof.
  intros [_ (f & Hf & Halt)]. exists f. split; [|done].
  intros t. destruct (Hf t) as (? & ? & ?). auto.
Qed.

Lemma update_task_frame title description due_date completed :
  hoare (fun self w => self = self0 /\ w = w0)
        (update_task task_id title description due_date completed)
        (fun _ self _ =>
           exists f, touch_only (clock w0 (ticks w0)) f
                     /\ altered_by f task_id self0 self).
Proof.
  apply (hoare_weaken _ editing _ _ (fun _ => touched)).
  2:{ intros self w [-> ->]. split; [done|]. exists (fun t => t).
      split; [done|]. unfold altered_by. rewrite dict_alter_same.
      by destruct self0. }
  2:{ done. }
  unfold update_task.
  apply (hoare_bind editing (fun _ => editing));
    [apply stable_get_task|intros _|intros; by apply editing_touched].
  apply (hoare_bind editing (fun _ => editing));
    [|intros changed1|intros; by apply editing_touched].
  { destruct title as [s|]; [|apply stable_ret].
    destruct (negb (nonempty (strip s))); [apply stable_raise|].
    apply stable_bind; [by apply setattr_editing | intros; apply stable_ret]. }
  apply (hoare_bind editing (fun _ => editing));
    [|intros changed2|intros; by apply editing_touched].
  { destruct description as [|v]; [apply stable_ret|].
    apply stable_bind; [apply stable_lift|]. intros text.
    apply stable_bind; [by apply setattr_editing | intros; apply stable_ret]. }
  apply (hoare_bind editing (fun _ => editing));
    [|intros changed3|intros; by apply editing_touched].
  { destruct due_date as [|v]; [apply stable_ret|].
    apply stable_bind; [|intros; apply stable_ret].
    destruct v; first [apply stable_raise | by apply setattr_editing]. }
  apply (hoare_bind editing (fun _ => editing));
    [|intros changed4|intros; by apply editing_touched].
  { destruct completed as [c|]; [|apply stable_ret].
    apply stable_bind; [by apply setattr_editing | intros; apply stable_ret]. }
  apply (hoare_bind editing (fun _ => touched));
    [|intros _; apply (stable_get_task touched)|done].
  intros self w [-> (f & Hf & ->)]. destruct changed4.
  - unfold utcnow, _save. run_m. simpl.
    rewrite dict_alter_compose, dict_get_alter_eq.
    assert (touch_only (clock w0 (ticks w0))
              (fun t => set_updated_at (clock w0 (ticks w0)) (f t))) as Htouch.
    { intros t. simpl. destruct (Hf t) as (? & ? & _). auto. }
    destruct (dict_get task_id (_tasks self0)) as [t0|] eqn:Hget; simpl.
    + erewrite dict_set_same;
        [|by rewrite dict_get_alter_eq, Hget].
      destruct (_storage_path self0) eqn:Hpath; unfold write_json, touched;
        eexists; (split; [exact Htouch | unfold altered_by; by rewrite ?Hpath]).
    + unfold touched. eexists; (split; [exact Htouch | reflexivity]).
  - simpl. exists f. split; [|done].
    intros t. destruct (Hf t) as (? & ? & ?). auto.
Qed.
End UpdateFrame.

(** ** What a call of [update_task] that raises leaves behind *)

Section UpdateRaise.
Context (task_id : Z) (self0 : TaskRepository) (w0 : World).

Local Abbreviation checking := (checking_at task_id self0 w0).
Local Abbreviation applying := (applying_at task_id).

Lemma checking_applying self w : checking self w -> applying self w.
Proof.
  intros (_ & [t0 Hget] & f & _ & ->). unfold applying. simpl.
  rewrite dict_get_alter_eq, Hget. by eexists.
Qed.

Lemma setattr_checking (g : Task -> Task) :
  title_description_only g -> stable checking (setattr task_id g).
Proof.
  intros Hg self w (-> & Hpresent & f & Hf & ->). run_m. simpl.
  split; [done|]. split; [done|]. exists (fun t => g (f t)). split.
  - intros t. destruct (Hg (f t)) as (-> & -> & -> & -> & ->). apply Hf.
  - unfold altered_by. by rewrite dict_alter_compose.
Qed.

Lemma setattr_applying (g : Task -> Task) : stable applying (setattr task_id g).
Proof.
  intros self w [t Hget]. run_m. unfold applying. simpl.
  rewrite dict_get_alter_eq, Hget. by eexists.
Qed.

Lemma get_task_applying :
  hoare applying (get_task task_id)
        (fun r self w => applying self w /\ exists task, r = Ok task).
Proof.
  intros self w [t Hget]. run_m. rewrite Hget. split; [by exists t | by eexists].
Qed.

(** Whatever exception [update_task] raises, it has read no clock and
    written no file, and the collection differs from the one at the call in
    the title and the description of the addressed task at most. *)
Lemma update_task_raise_frame title description due_date completed :
  hoare (fun self w => self = self0 /\ w = w0)
        (update_task task_id title description due_date completed)
        (fun r self w =>
           forall e, r = Raise e ->
             w = w0 /\ exists f, title_description_only f
                                 /\ altered_by f task_id self0 self).
Proof.
  set (start := fun (self : TaskRepository) (w : World) =>
                  self = self0 /\ w = w0).
  set (on_raise := fun (P : TaskRepository -> World -> Prop) (A : Type)
                       (r : Res A) (self : TaskRepository) (w : World) =>
                     match r with
                     | Raise _ => start self w \/ checking self w
                     | Ok _ => P self w
                     end).
  apply (hoare_weaken _ start _ _ (on_raise (fun _ _ => True) Task)); [|done|].
  2:{ intros r self w Hr e ->. simpl in Hr. destruct Hr as [[-> ->]|Hr].
      - split; [done|]. exists (fun t => t). split; [done|].
        unfold altered_by. rewrite dict_alter_same. by destruct self0.
      - destruct Hr as (-> & _ & Hf). by split. }
  unfold update_task.
  apply (hoare_bind start (on_raise checking Task)); [|intros task0|done].
  { intros self w [-> ->]. run_m.
    destruct (dict_get task_id (_tasks self0)) as [t0|] eqn:Hget; simpl.
    - split; [done|]. split; [by eexists|]. exists (fun t => t).
      split; [done|]. unfold altered_by. rewrite dict_alter_same.
      by destruct self0.
    - by left. }
  apply (hoare_bind checking (on_raise checking bool)); [|intros changed1|done].
  { destruct title as [s|]; [|by intros ? ? ?].
    destruct (negb (nonempty (strip s))); [by intros ? ? ?; right|].
    intros self w Hc.
    pose proof (setattr_checking (set_title (strip s)) (fun t => ltac:(done))
                  self w Hc) as Hset.
    revert Hset. run_m. done. }
  apply (hoare_bind checking (on_raise checking bool)); [|intros changed2|done].
  { destruct description as [|v]; [by intros ? ? ?|].
    intros self w Hc. run_m.
    destruct (or_empty_strip v) as [text|e]; [|by right].
    pose proof (setattr_checking (set_description text) (fun t => ltac:(done))
                  self w Hc) as Hset.
    revert Hset. run_m. done. }
  apply (hoare_bind checking (on_raise applying bool)); [|intros changed3|done].
  { destruct due_date as [|v]; [by intros ? ? ? %checking_applying|].
    intros self w Hc. apply checking_applying in Hc as Ha.
    destruct v; try (by right).
    - pose proof (setattr_applying (set_due_date None) self w Ha) as Hset.
      revert Hset. run_m. done.
    - pose proof (setattr_applying (set_due_date (Some d)) self w Ha) as Hset.
      revert Hset. run_m. done. }
  set (returns := fun (A : Type) (r : Res A) (self : TaskRepository) (w : World) =>
                    match r with
                    | Raise _ => False
                    | Ok _ => applying self w
                    end).
  apply (hoare_bind applying (returns bool)); [|intros changed4|done].
  { destruct completed as [c|]; [|by intros ? ? ?].
    intros self w Ha.
    pose proof (setattr_applying (set_completed c) self w Ha) as Hset.
    revert Hset. run_m. done. }
  apply (hoare_bind applying (returns unit)); [|intros []|done].
  - destruct changed4; [|by intros ? ? ?].
    intros self w [t Hget]. unfold utcnow, _save, write_json. run_m. simpl.
    rewrite dict_get_alter_eq, Hget. simpl.
    assert (applying
              (mkRepo (_storage_path self)
                 (dict_set task_id (set_updated_at (clock w (ticks w)) t)
                    (dict_alter (set_updated_at (clock w (ticks w))) task_id
                       (_tasks self)))
                 (_next_id self)) w) as Ha.
    { unfold applying. simpl. rewrite dict_get_set_eq. by eexists. }
    by destruct (_storage_path self).
  - intros self w Ha. pose proof (get_task_applying self w Ha) as Hget.
    destruct (get_task task_id self w) as [[r self'] w'].
    by destruct Hget as [_ [task ->]].
Qed.
End UpdateRaise.

(** ** The collection stays keyed by id *)

Lemma Forall_of_sublist {A} (P : A -> Prop) (l1 l2 : list A) :
  sublist l1 l2 -> Forall P l2 -> Forall P l1.
Proof.
  intros Hsub. rewrite !Forall_forall. intros HP x Hx.
  eapply HP, elem_of_sublist; eauto.
Qed.

(** The outcome of [add_task], call by call. *)
Lemma add_task_outcome title description due_date self w :
  match add_task title description due_date self w with
  | (Ok task, self', w') =>
      id task = _next_id self
      /\ updated_at task = created_at task
      /\ self' = mkRepo (_storage_path self)
                        (dict_set (_next_id self) task (_tasks self))
                        (_next_id self + 1)
  | (Raise _, self', _) => self' = self
  end.
Proof.
  unfold add_task. destruct (negb (nonempty (strip title))); [done|].
  unfold utcnow, _save. run_m.
  destruct (or_empty_strip description) as [text|e]; [|done]. simpl.
  by destruct (_storage_path self).
Qed.

Lemma add_task_repo_ok title description due_date :
  stable (fun self _ => repo_ok self) (add_task title description due_date).
Proof.
  intros self w [[Hnodup Hkeyed] Hbound].
  pose proof (add_task_outcome title description due_date self w) as Hout.
  destruct (add_task title description due_date self w) as [[[task|e] self'] w'].
  - destruct Hout as (Hid & _ & ->). repeat split; simpl.
    + by apply dict_set_NoDup.
    + by apply dict_set_Forall.
    + rewrite dict_set_keys. case_decide.
      * eapply Forall_impl; [exact Hbound|]. intros; simpl in *; lia.
      * apply Forall_app. split.
        -- eapply Forall_impl; [exact Hbound|]. intros; simpl in *; lia.
        -- repeat constructor. lia.
  - by subst.
Qed.

Lemma update_task_repo_ok task_id title description due_date completed :
  stable (fun self _ => repo_ok self)
         (update_task task_id title description due_date completed).
Proof.
  intros self w [[Hnodup Hkeyed] Hbound].
  pose proof (update_task_frame task_id self w title description due_date
                completed self w (conj eq_refl eq_refl)) as Hframe.
  destruct (update_task _ _ _ _ _ self w) as [[r self'] w'].
  destruct Hframe as (f & Hf & ->). repeat split; simpl.
  - by rewrite dict_keys_alter.
  - apply dict_alter_Forall; [|done]. simpl. intros t <-. apply Hf.
  - by rewrite dict_keys_alter.
Qed.

Lemma delete_task_repo_ok task_id :
  stable (fun self _ => repo_ok self) (delete_task task_id).
Proof.
  intros self w [[Hnodup Hkeyed] Hbound]. unfold delete_task, _save. run_m.
  destruct (dict_get task_id (_tasks self)); [|done]. simpl.
  assert (repo_ok (mkRepo (_storage_path self) (dict_del task_id (_tasks self))
                          (_next_id self))) as Hok.
  { repeat split; simpl.
    - eapply sublist_NoDup; [done | apply dict_del_keys_sublist].
    - eapply Forall_of_sublist; [apply dict_del_sublist | done].
    - eapply Forall_of_sublist; [apply dict_del_keys_sublist | done]. }
  by destruct (_storage_path self).
Qed.

Lemma clear_repo_ok : stable (fun self _ => repo_ok self) clear.
Proof.
  intros self w _. unfold clear, unlink. run_m. simpl.
  assert (repo_ok (mkRepo (_storage_path self) [] 1)) as Hok.
  { repeat split; simpl; constructor. }
  by destruct (_storage_path self).
Qed.

Lemma state_after_stable {A} (I : TaskRepository -> Prop) (m : M A) self w :
  stable (fun self _ => I self) m -> I self -> I (state_after m self w).1.
Proof.
  intros Hm HI. specialize (Hm self w HI). unfold state_after.
  by destruct (m self w) as [[? ?] ?].
Qed.

Lemma perform_repo_ok (c : call) self w :
  repo_ok self -> repo_ok (perform c self w).1.
Proof.
  intros Hok. destruct c; simpl; apply state_after_stable; try done.
  - apply add_task_repo_ok.
  - apply update_task_repo_ok.
  - apply delete_task_repo_ok.
  - apply clear_repo_ok.
Qed.

Lemma perform_all_repo_ok (calls : list call) self w :
  repo_ok self -> repo_ok (perform_all calls self w).1.
Proof.
  revert self w. induction calls as [|c calls IH]; intros self w Hok; [done|].
  simpl. pose proof (perform_repo_ok c self w Hok) as Hstep.
  destruct (perform c self w) as [self' w']. by apply IH.
Qed.

(** In a collection keyed by id no two tasks have the same id. *)
Lemma keyed_by_id_NoDup (d : dict Z Task) :
  keyed_by_id d -> NoDup (map id (dict_values d)).
Proof.
  intros [Hnodup Hkeyed].
  rewrite (dict_values_keys_map id (fun k => k)) by done.
  by rewrite map_id.
Qed.

(** ** Loading *)

Lemma foldr_max_spec (k : Z) (ks : list Z) :
  Forall (fun x => x <= foldr Z.max k ks) (k :: ks)
  /\ foldr Z.max k ks ∈ k :: ks.
Proof.
  induction ks as [|x ks [Hall Hin]]; simpl.
  - split; [by repeat constructor | apply list_elem_of_here].
  - apply Forall_cons in Hall as [Hk Hks]. split.
    + repeat constructor; [lia..|].
      eapply Forall_impl; [exact Hks|]. intros; simpl in *; lia.
    + destruct (Z.max_spec x (foldr Z.max k ks)) as [[_ ->]|[_ ->]].
      * apply elem_of_cons in Hin as [->|Hin]; [apply list_elem_of_here|].
        by do 2 apply list_elem_of_further.
      * apply list_elem_of_further, list_elem_of_here.
Qed.

Lemma next_id_after_spec (keys : list Z) :
  Forall (fun k => k < next_id_after keys) keys
  /\ (keys <> [] -> next_id_after keys - 1 ∈ keys).
Proof.
  destruct keys as [|k ks]; simpl; [by split|].
  destruct (foldr_max_spec k ks) as [Hall Hin]. split.
  - eapply Forall_impl; [exact Hall|]. intros; simpl in *; lia.
  - intros _. by replace (foldr Z.max k ks + 1 - 1) with (foldr Z.max k ks) by lia.
Qed.

Lemma setitem_keyed (I : TaskRepository -> World -> Prop) (task : Task) :
  (forall self w d, I self w ->
     I (mkRepo (_storage_path self) d (_next_id self)) w) ->
  stable (fun self w => keyed_by_id (_tasks self) /\ I self w)
         (setitem (id task) task).
Proof.
  intros HI self w [[Hnodup Hkeyed] Hself]. run_m. simpl. repeat split.
  - by apply dict_set_NoDup.
  - by apply dict_set_Forall.
  - by apply HI.
Qed.

(** A repository that [__init__] returns holds a collection keyed by id,
    has the counter that [max] gives, and has not touched the world. *)
Lemma init_spec storage_path w0 self w :
  __init__ storage_path w0 = (Ok tt, self, w) ->
  keyed_by_id (_tasks self)
  /\ _next_id self = next_id_after (dict_keys (_tasks self))
  /\ _storage_path self = storage_path
  /\ w = w0.
Proof.
  assert (keyed_by_id ([] : dict Z Task)) as Hempty.
  { split; constructor. }
  unfold __init__. destruct storage_path as [path|];
    [|by intros [= <- <-]].
  unfold _load. run_m. simpl.
  destruct (files w0 !! path) as [[|payload]|]; [done| |by intros [= <- <-]].
  destruct (py_iter payload) as [items|e]; [|done].
  set (body := fun item : json =>
                 bind (lift (from_dict item)) (fun task => setitem (id task) task)).
  set (I := fun (self : TaskRepository) (w : World) =>
              keyed_by_id (_tasks self)
              /\ (_storage_path self = Some path /\ w = w0)).
  assert (stable I (for_each items body)) as Hloop.
  { apply stable_for_each. intros item. apply stable_bind; [apply stable_lift|].
    intros task. apply setitem_keyed. by intros ? ? ? [? ?]. }
  specialize (Hloop (mkRepo (Some path) [] 1) w0
                     (conj Hempty (conj eq_refl eq_refl))).
  change (for_each items _) with (for_each items body).
  destruct (for_each items body _ w0) as [[[[]|e] self'] w']; [|done].
  destruct Hloop as (Hkeyed & Hpath & ->).
  by intros [= <- <-].
Qed.

Lemma init_repo_ok storage_path w0 self w :
  __init__ storage_path w0 = (Ok tt, self, w) -> repo_ok self.
Proof.
  intros (Hkeyed & Hnext & _)%init_spec. split; [done|].
  rewrite Hnext. apply next_id_after_spec.
Qed.

Lemma load_loop_raises (good rest : list json) (bad : json) (e : exn) self w :
  Forall (fun item => exists t, from_dict item = Ok t) good ->
  from_dict bad = Raise e ->
  exists self',
    for_each (good ++ bad :: rest)
      (fun item => bind (lift (from_dict item)) (fun task => setitem (id task) task))
      self w
    = (Raise e, self', w).
Proof.
  intros Hgood Hbad. revert self.
  induction Hgood as [|item good [t Ht] _ IH]; intros self; simpl.
  - run_m. rewrite Hbad. by eexists.
  - run_m. rewrite Ht. simpl.
    destruct (IH (mkRepo (_storage_path self)
                         (dict_set (id t) t (_tasks self)) (_next_id self)))
      as [self' Hrest].
    revert Hrest. run_m. intros ->. by eexists.
Qed.

(** A record that [from_dict] rejects aborts the construction of the
    repository: the records before it have been read, none after it is,
    and the exception is the one [from_dict] raised. *)
Lemma init_raises_on_rejected_record
    (path : string) (w : World) (good rest : list json) (bad : json) (e : exn) :
  files w !! path = Some (Document (JList (good ++ bad :: rest))) ->
  Forall (fun item => exists t, from_dict item = Ok t) good ->
  from_dict bad = Raise e ->
  exists self', __init__ (Some path) w = (Raise e, self', w).
Proof.
  intros Hfile Hgood Hbad. unfold __init__, _load.
  destruct (load_loop_raises good rest bad e (mkRepo (Some path) [] 1) w
              Hgood Hbad) as [self' Hloop].
  revert Hloop. run_m. simpl. rewrite Hfile. simpl. intros ->. by eexists.
Qed.

(** C9: in a repository that [__init__] returns, whether it loaded a
    backing file or found none, the counter is 1 when the collection is
    empty and otherwise one more than the id of some task, every task has an
    id below the counter, and the next [add_task] that succeeds returns a
    task with exactly the counter as its id. *)
Theorem load_sets_next_id
    (storage_path : option string) (w0 : World)
    (self : TaskRepository) (w : World) :
  __init__ storage_path w0 = (Ok tt, self, w) ->
  (dict_values (_tasks self) = [] -> _next_id self = 1)
  /\ (forall t, t ∈ dict_values (_tasks self) -> id t < _next_id self)
  /\ (dict_values (_tasks self) <> [] ->
      exists t, t ∈ dict_values (_tasks self) /\ _next_id self = id t + 1)
  /\ (forall title description due_date task self' w',
        add_task title description due_date self w = (Ok task, self', w') ->
        id task = _next_id self).
Proof.
  intros ([Hnodup Hkeyed] & Hnext & _)%init_spec.
  pose proof (dict_values_keys_map id (fun k => k) _ Hkeyed) as Hids.
  rewrite map_id in Hids.
  destruct (next_id_after_spec (dict_keys (_tasks self))) as [Hbelow Hmax].
  rewrite <- Hnext in Hbelow, Hmax. rewrite <- Hids in Hbelow, Hmax.
  repeat split.
  - intros Hnil. rewrite Hnext. unfold dict_keys, dict_values in *.
    by destruct (_tasks self).
  - intros t Ht. rewrite Forall_forall in Hbelow.
    apply Hbelow, list_elem_of_In, in_map, list_elem_of_In, Ht.
  - intros Hne.
    assert (_next_id self - 1 ∈ map id (dict_values (_tasks self))) as Hin.
    { apply Hmax. by destruct (dict_values (_tasks self)). }
    apply list_elem_of_In, in_map_iff in Hin as (t & Hid & Ht).
    exists t. split; [by apply list_elem_of_In | lia].
  - intros title description due_date task self' w' Hadd.
    pose proof (add_task_outcome title description due_date self w) as Hout.
    rewrite Hadd in Hout. apply Hout.
Qed.

(** ** Identifiers *)

Lemma add_tasks_ids calls self w :
  Forall (fun i => _next_id self <= i) (returned_ids (add_tasks calls self w))
  /\ StronglySorted Z.lt (returned_ids (add_tasks calls self w)).
Proof.
  revert self w. induction calls as [|[[title description] due_date] calls IH];
    intros self w; simpl; [by split; constructor|].
  pose proof (add_task_outcome title description due_date self w) as Hout.
  destruct (add_task title description due_date self w) as [[[task|e] self'] w'];
    simpl; destruct (IH self' w') as [Hall Hsorted].
  - destruct Hout as (Hid & _ & ->). simpl in Hall. split.
    + constructor; [lia|].
      eapply Forall_impl; [exact Hall|]. intros; simpl in *; lia.
    + constructor; [done|].
      eapply Forall_impl; [exact Hall|]. intros; simpl in *; lia.
  - by subst.
Qed.

Lemma increasing_NoDup (l : list Z) : StronglySorted Z.lt l -> NoDup l.
Proof.
  induction 1 as [|x l _ IH Hall]; constructor; [|done].
  rewrite Forall_forall in Hall. intros Hx%Hall. lia.
Qed.

(** C8: on a repository instance, constructed over any backing file and
    used through any series of calls, no two tasks of the collection have
    the same id, and the tasks returned by a following series of [add_task]
    calls have strictly increasing, hence pairwise distinct, ids in call
    order (calls that raise return no task). *)
Theorem ids_unique_and_increasing
    (storage_path : option string) (w0 : World)
    (self : TaskRepository) (w : World) :
  __init__ storage_path w0 = (Ok tt, self, w) ->
  forall (calls : list call) (adds : list (string * pyval * option date)),
    match perform_all calls self w with
    | (self1, w1) =>
        NoDup (map id (dict_values (_tasks self1)))
        /\ StronglySorted Z.lt (returned_ids (add_tasks adds self1 w1))
        /\ NoDup (returned_ids (add_tasks adds self1 w1))
    end.
Proof.
  intros Hinit%init_repo_ok calls adds.
  pose proof (perform_all_repo_ok calls self w Hinit) as Hok.
  destruct (perform_all calls self w) as [self1 w1]. simpl in Hok.
  destruct (add_tasks_ids adds self1 w1) as [_ Hsorted].
  repeat split; [|done|by apply increasing_NoDup].
  apply keyed_by_id_NoDup, Hok.
Qed.

(** ** Rejected calls *)

(** C7: [add_task] with a title that is empty once stripped raises
    [ValueError]; the repository object (collection and id counter) and the
    world (backing file, clock) are exactly as before the call. *)
Theorem add_task_rejects_blank_title
    (title : string) (description : pyval) (due_date : option date)
    (self : TaskRepository) (w : World) :
  strip title = EmptyString ->
  add_task title description due_date self w = (Raise ValueError, self, w).
Proof.
  intros Hblank. unfold add_task. by rewrite Hblank.
Qed.

(** C4: [update_task] on an existing id with no field supplied returns the
    stored task as it is and changes neither the repository object nor the
    world: no attribute is assigned, the clock is not read, nothing is
    written. *)
Theorem update_task_nothing_supplied
    (task_id : Z) (task : Task) (self : TaskRepository) (w : World) :
  dict_get task_id (_tasks self) = Some task ->
  update_task task_id None _SENTINEL _SENTINEL None self w = (Ok task, self, w).
Proof.
  intros Hget. unfold update_task. run_m.
  rewrite Hget. run_m. by rewrite Hget.
Qed.

(** ** Reading a record *)

Lemma res_bind_Ok {A B} (r : Res A) (k : A -> Res B) (b : B) :
  res_bind r k = Ok b <-> exists a, r = Ok a /\ k a = Ok b.
Proof.
  destruct r as [a|e]; simpl.
  - split; [by exists a | by intros (? & [= ->] & ?)].
  - split; [done | by intros (? & [=] & _)].
Qed.

Lemma py_get_set_eq key v members default :
  py_get (JObj (dict_set key v members)) key default = Ok v.
Proof. simpl. by rewrite dict_get_set_eq. Qed.

Lemma py_get_set_ne key key' v members default :
  key ≠ key' ->
  py_get (JObj (dict_set key v members)) key' default
  = py_get (JObj members) key' default.
Proof. intros Hne. simpl. by rewrite dict_get_set_ne. Qed.

Lemma py_getitem_set_ne key key' v members :
  key ≠ key' ->
  py_getitem (JObj (dict_set key v members)) key'
  = py_getitem (JObj members) key'.
Proof. intros Hne. simpl. by rewrite dict_get_set_ne. Qed.

(** A successful run of [res_bind]s, split into one equation per step. *)
Ltac invert_ok H :=
  repeat (apply res_bind_Ok in H as (? & ? & H)); injection H as <-.

(** Replaying in the goal the steps known to succeed. *)
Ltac replay_ok :=
  repeat match goal with
         | Heq : ?r = Ok _ |- context [?r] => rewrite Heq; cbn [res_bind]
         end.

(** [bool(v)] is false for the empty values and for no other. *)
Lemma py_bool_false_iff (v : json) :
  py_bool v = false <->
  v = JNull \/ v = JBool false \/ v = JInt 0 \/ v = JStr EmptyString
  \/ v = JList [] \/ v = JObj [].
Proof.
  split.
  - destruct v as [|[]|z|[|c s]|[|i l]|[|m l]]; simpl; try discriminate; auto 7.
    destruct (Z.eqb_spec z 0) as [->|]; [auto 7 | discriminate].
  - intros [->|[->|[->|[->|[->| ->]]]]]; reflexivity.
Qed.

(** C10: the [completed] member of a record is never a reason to reject
    it.  A task read from a record has [completed] equal to the truth value
    of that member, false when the member is missing; putting any value [v]
    in its place gives the same task with [completed = bool(v)]; and
    [bool(v)] is false only for null, false, 0 and the empty string, list
    and object, so that the string ["false"] reads as true. *)
Theorem from_dict_completed_truth_value
    (members : list (string * json)) (t : Task) :
  from_dict (JObj members) = Ok t ->
  completed t = match dict_get "completed" members with
                | Some v => py_bool v
                | None => false
                end
  /\ (forall v : json,
        from_dict (JObj (dict_set "completed" v members))
        = Ok (set_completed (py_bool v) t))
  /\ (forall v : json,
        py_bool v = false <->
        v = JNull \/ v = JBool false \/ v = JInt 0 \/ v = JStr EmptyString
        \/ v = JList [] \/ v = JObj []).
Proof.
  intros Hok. split; [|split].
  - unfold from_dict in Hok. invert_ok Hok. simpl.
    match goal with
    | Hc : res_bind (py_get _ "completed" _) _ = Ok ?b |- ?b = _ =>
        simpl in Hc; injection Hc as <-
    end.
    by destruct (dict_get "completed" members).
  - intros v. unfold from_dict in *.
    rewrite py_get_set_eq.
    rewrite !(py_get_set_ne "completed"), !(py_getitem_set_ne "completed")
      by discriminate.
    invert_ok Hok. replay_ok. reflexivity.
  - apply py_bool_false_iff.
Qed.

(** C2, as the code has it: [from_dict] tests the truth value of the
    [due_date] member, not whether it is null.  The task read from a record
    has the parsed date when the member is a non-empty string, and no due
    date when it is missing, null or any other empty value.  Putting a value
    [v] in its place in a record that reads well gives: no due date when
    [bool(v)] is false; the parsed date, or [ValueError] when
    [date.fromisoformat] rejects it, when [v] is a non-empty string; and
    [TypeError] for any other [v]. *)
Theorem from_dict_due_date_truth_value
    (members : list (string * json)) (t : Task) :
  from_dict (JObj members) = Ok t ->
  due_date t = match dict_get "due_date" members with
               | Some (JStr s) => if nonempty s then date_fromisoformat s else None
               | _ => None
               end
  /\ (forall v : json,
        from_dict (JObj (dict_set "due_date" v members))
        = if py_bool v
          then match v with
               | JStr s =>
                   match date_fromisoformat s with
                   | Some d => Ok (set_due_date (Some d) t)
                   | None => Raise ValueError
                   end
               | _ => Raise TypeError
               end
          else Ok (set_due_date None t)).
Proof.
  intros Hok. split.
  - unfold from_dict in Hok. invert_ok Hok. simpl.
    match goal with
    | Hd : py_get _ "due_date" _ = Ok ?due,
      Hp : (if py_bool ?due then _ else _) = Ok ?x |- ?x = _ =>
        simpl in Hd; injection Hd as <-; revert Hp
    end.
    destruct (dict_get "due_date" members) as [[|[]|z|[|c s]|[|i l]|[|m l]]|];
      simpl; try (by intros [= <-]).
    + destruct (negb (Z.eqb z 0)); [done | by intros [= <-]].
    + destruct (date_fromisoformat (String c s)); simpl; [by intros [= <-] | done].
  - intros v. unfold from_dict in *.
    rewrite py_get_set_eq.
    rewrite !(py_get_set_ne "due_date"), !(py_getitem_set_ne "due_date")
      by discriminate.
    invert_ok Hok. cbn [res_bind].
    match goal with
    | Hd : py_get _ "due_date" _ = Ok _ |- _ => clear Hd
    end.
    match goal with
    | Hp : (if py_bool _ then _ else _) = Ok _ |- _ => clear Hp
    end.
    replay_ok.
    destruct (py_bool v); [|by replay_ok].
    destruct v as [| | |s| |]; simpl; try done.
    destruct (date_fromisoformat s); simpl; [by replay_ok | done].
Qed.

(** ** Listing *)

Lemma insert_by_id_perm (t : Task) (l : list Task) :
  insert_by_id t l ≡ₚ t :: l.
Proof.
  induction l as [|u l IH]; simpl; [done|].
  destruct (id t <=? id u); [done|].
  rewrite IH. apply Permutation_swap.
Qed.

Lemma sorted_perm (l : list Task) : sorted l ≡ₚ l.
Proof.
  induction l as [|t l IH]; simpl; [done|].
  by rewrite insert_by_id_perm, IH.
Qed.

Lemma insert_by_id_sorted (t : Task) (l : list Task) :
  StronglySorted by_id l -> StronglySorted by_id (insert_by_id t l).
Proof.
  induction 1 as [|u l Hsorted IH Hall]; simpl.
  - repeat constructor.
  - destruct (Z.leb_spec (id t) (id u)) as [Hle|Hgt].
    + constructor; [by constructor|].
      constructor; [done|].
      eapply Forall_impl; [exact Hall|]. unfold by_id. intros; simpl in *; lia.
    + constructor; [done|].
      rewrite insert_by_id_perm. constructor; [unfold by_id; lia | done].
Qed.

Lemma sorted_sorted (l : list Task) : StronglySorted by_id (sorted l).
Proof.
  induction l as [|t l IH]; simpl; [constructor|].
  by apply insert_by_id_sorted.
Qed.

(** Sorting a list that is already in order leaves it as it is. *)
Lemma insert_by_id_head (t : Task) (l : list Task) :
  Forall (by_id t) l -> insert_by_id t l = t :: l.
Proof.
  destruct 1 as [|u l Hle _]; simpl; [done|].
  unfold by_id in Hle. by rewrite (proj2 (Z.leb_le _ _) Hle).
Qed.

Lemma sorted_id (l : list Task) : StronglySorted by_id l -> sorted l = l.
Proof.
  induction 1 as [|t l _ IH Hall]; simpl; [done|].
  rewrite IH. by apply insert_by_id_head.
Qed.

(** C6: every listing is in ascending order of [id]; the listing with
    [completed=True] holds exactly the tasks of the collection whose
    [completed] is true; the listing with [due_before=limit] holds exactly
    the tasks that have a due date [d] with [d <= limit], so a task without
    due date is left out; with both filters a task is listed exactly when it
    passes both.  "Exactly" is up to order, each task as many times as the
    collection holds it. *)
Theorem list_tasks_filters (self : TaskRepository) :
  (forall completed due_before,
     StronglySorted (fun a b => id a <= id b)
       (list_tasks self completed due_before))
  /\ list_tasks self (Some true) None
     ≡ₚ List.filter (fun t => completed t) (dict_values (_tasks self))
  /\ (forall limit : date,
        list_tasks self None (Some limit)
        ≡ₚ List.filter (fun t => match due_date t with
                                 | Some d => date_le d limit
                                 | None => false
                                 end)
                       (dict_values (_tasks self)))
  /\ (forall (c : bool) (limit : date),
        list_tasks self (Some c) (Some limit)
        ≡ₚ List.filter (fun t => Bool.eqb (completed t) c
                                 && match due_date t with
                                    | Some d => date_le d limit
                                    | None => false
                                    end)
                       (dict_values (_tasks self))).
Proof.
  unfold list_tasks. repeat split.
  - intros. apply sorted_sorted.
  - rewrite sorted_perm.
    erewrite List.filter_ext; [done|].
    intros t. unfold completed_is. by destruct (completed t).
  - intros limit. by rewrite sorted_perm.
  - intros c limit. rewrite sorted_perm.
    generalize (dict_values (_tasks self)). intros l.
    induction l as [|t l IH]; simpl; [done|].
    unfold completed_is at 1. unfold due_by at 1.
    destruct (Bool.eqb (completed t) c); simpl; [|done].
    destruct (due_date t) as [d|]; [|done].
    destruct (date_le d limit); [|done].
    by rewrite IH.
Qed.

(** ** Saving and loading again *)

Lemma from_dict_to_dict (t : Task) :
  iso_faithful t -> from_dict (to_dict t) = Ok t.
Proof.
  intros (Hdue & Hcreated & Hupdated). destruct t as [i ti de co du cr up].
  unfold from_dict, to_dict. simpl in *.
  rewrite Hcreated, Hupdated.
  destruct du as [d|]; simpl; [|done].
  destruct Hdue as [-> ->]. done.
Qed.

Lemma load_items (tasks : list Task) path (d0 : dict Z Task) n w :
  Forall iso_faithful tasks ->
  for_each (map to_dict tasks)
    (fun item => bind (lift (from_dict item)) (fun task => setitem (id task) task))
    (mkRepo path d0 n) w
  = (Ok tt, mkRepo path (foldl (fun d t => dict_set (id t) t d) d0 tasks) n, w).
Proof.
  intros Hall. revert d0.
  induction Hall as [|t tasks Ht _ IH]; intros d0; simpl; [done|].
  run_m. rewrite (from_dict_to_dict t Ht). simpl. apply IH.
Qed.

Lemma foldl_dict_set_fresh (tasks : list Task) (d0 : dict Z Task) :
  NoDup (dict_keys d0 ++ map id tasks) ->
  foldl (fun d t => dict_set (id t) t d) d0 tasks
  = d0 ++ map (fun t => (id t, t)) tasks.
Proof.
  revert d0. induction tasks as [|t tasks IH]; intros d0 Hnodup; simpl.
  - by rewrite app_nil_r.
  - assert (id t ∉ dict_keys d0) as Hfresh.
    { apply NoDup_app in Hnodup as (_ & Hdisj & _). intros Hin.
      apply (Hdisj _ Hin), list_elem_of_here. }
    rewrite dict_set_fresh by done. rewrite IH.
    + by rewrite <- app_assoc.
    + unfold dict_keys in *. rewrite map_app. simpl.
      by rewrite <- app_assoc.
Qed.

Lemma dict_get_elem_of (d : dict Z Task) k t :
  NoDup (dict_keys d) -> (k, t) ∈ d -> dict_get k d = Some t.
Proof.
  induction d as [|[k' t'] d IH]; simpl.
  - by intros _ ?%elem_of_nil.
  - intros [Hnotin Hnodup]%NoDup_cons [[= -> ->]|Hin]%elem_of_cons.
    + by rewrite decide_True.
    + rewrite decide_False; [by apply IH|].
      intros ->. apply Hnotin, list_elem_of_In. apply list_elem_of_In in Hin.
      change k' with (fst (k', t)). by apply in_map.
Qed.

(** A dict built from a list of tasks with distinct ids binds the same
    tasks as a dict keyed by id that holds the same tasks. *)
Lemma dict_of_tasks_get (d : dict Z Task) (tasks : list Task) k :
  keyed_by_id d -> tasks ≡ₚ dict_values d ->
  dict_get k (map (fun t => (id t, t)) tasks) = dict_get k d.
Proof.
  intros [Hnodup Hkeyed] Hperm.
  pose proof (dict_values_keys_map id (fun k => k) _ Hkeyed) as Hids.
  rewrite map_id in Hids.
  assert (dict_keys (map (fun t => (id t, t)) tasks) = map id tasks) as Hkeys.
  { unfold dict_keys. rewrite map_map. done. }
  assert (map id tasks ≡ₚ dict_keys d) as Hpermk.
  { rewrite <- Hids. by apply Permutation_map. }
  destruct (dict_get k d) as [t|] eqn:Hget.
  - apply dict_get_elem_of.
    + rewrite Hkeys, Hpermk. done.
    + apply dict_get_Some in Hget as Hin.
      rewrite Forall_forall in Hkeyed. specialize (Hkeyed _ Hin). simpl in Hkeyed.
      subst k. apply list_elem_of_In, (in_map (fun t => (id t, t))).
      apply list_elem_of_In. rewrite Hperm.
      apply list_elem_of_In. change t with (snd (id t, t)).
      apply in_map. by apply list_elem_of_In.
  - apply dict_get_None. rewrite Hkeys, Hpermk. by apply dict_get_None.
Qed.

(** C5: for a repository bound to a path, holding a collection keyed by id
    whose dates and timestamps [fromisoformat] reads back from their
    [isoformat()] text, [_save] returns, and a repository then constructed
    on the same path is returned with an equal collection: every id is
    bound to an equal task (same id, title, description, completed flag, due
    date and timestamps) and the listing is the same sequence of tasks. *)
Theorem save_then_load_round_trip
    (self : TaskRepository) (w : World) (path : string) :
  _storage_path self = Some path ->
  keyed_by_id (_tasks self) ->
  Forall iso_faithful (dict_values (_tasks self)) ->
  match _save self w with
  | (saved, self1, w1) =>
      saved = Ok tt /\ self1 = self
      /\ match __init__ (Some path) w1 with
         | (constructed, fresh, _) =>
             constructed = Ok tt
             /\ (forall k, dict_get k (_tasks fresh) = dict_get k (_tasks self))
             /\ list_tasks fresh None None = list_tasks self None None
         end
  end.
Proof.
  intros Hpath Hkeyed Hiso.
  set (listing := list_tasks self None None).
  assert (listing ≡ₚ dict_values (_tasks self)) as Hperm by apply sorted_perm.
  assert (StronglySorted by_id listing) as Hsorted by apply sorted_sorted.
  unfold _save, write_json. run_m. rewrite Hpath. simpl.
  split; [done|]. split; [done|].
  unfold __init__, _load. run_m. simpl.
  rewrite lookup_insert_eq. simpl. fold listing.
  rewrite load_items by (by rewrite Hperm).
  simpl. rewrite foldl_dict_set_fresh; simpl.
  2:{ rewrite Hperm. by apply keyed_by_id_NoDup. }
  split; [done|]. split.
  - intros k. by apply dict_of_tasks_get.
  - unfold list_tasks at 1. simpl. unfold dict_values.
    rewrite map_map. simpl. rewrite map_id. by apply sorted_id.
Qed.

(** ** Timestamps *)

Lemma Forall_values {K} (P : Task -> Prop) (d : dict K Task) :
  Forall P (dict_values d) <-> Forall (fun kv => P (snd kv)) d.
Proof. unfold dict_values. apply Forall_map. Qed.

(** C3, as the code has it: [updated_at >= created_at] is kept by
    [add_task], which gives both the same clock reading, and by
    [update_task] when the clock does not read earlier than the
    [created_at] of the task it addresses; a task read from a record has the
    two timestamps parsed from the record's [created_at] and [updated_at],
    with no comparison between them.  The order on timestamps is taken to
    be reflexive. *)
Theorem timestamps_ordered_by_add_and_update :
  (forall t : datetime, datetime_le t t = true) ->
  (forall title description due_date self w,
     Forall ordered (dict_values (_tasks self)) ->
     match add_task title description due_date self w with
     | (r, self', _) =>
         Forall ordered (dict_values (_tasks self'))
         /\ (forall task, r = Ok task -> updated_at task = created_at task)
     end)
  /\ (forall task_id title description due_date completed self w,
        Forall ordered (dict_values (_tasks self)) ->
        (forall t0, dict_get task_id (_tasks self) = Some t0 ->
                    datetime_le (created_at t0) (clock w (ticks w)) = true) ->
        match update_task task_id title description due_date completed self w with
        | (_, self', _) => Forall ordered (dict_values (_tasks self'))
        end)
  /\ (forall members t,
        from_dict (JObj members) = Ok t ->
        exists c u,
          dict_get "created_at" members = Some (JStr c)
          /\ dict_get "updated_at" members = Some (JStr u)
          /\ datetime_fromisoformat c = Some (created_at t)
          /\ datetime_fromisoformat u = Some (updated_at t)).
Proof.
  intros Hrefl. split; [|split].
  - intros title description due_date self w Hall.
    pose proof (add_task_outcome title description due_date self w) as Hout.
    destruct (add_task title description due_date self w) as [[[task|e] self'] w'].
    + destruct Hout as (_ & Hsame & ->). simpl. split.
      * apply Forall_values, dict_set_Forall; [|by apply Forall_values].
        simpl. unfold ordered. rewrite Hsame. apply Hrefl.
      * by intros ? [= <-].
    + subst. by split.
  - intros task_id title description due_date completed self w Hall Hclock.
    pose proof (update_task_frame task_id self w title description due_date
                  completed self w (conj eq_refl eq_refl)) as Hframe.
    destruct (update_task _ _ _ _ _ self w) as [[r self'] w'].
    destruct Hframe as (f & Hf & ->). simpl.
    apply Forall_values, dict_alter_Forall_get; [|by apply Forall_values].
    simpl. intros t0 Hget Hord. unfold ordered in *.
    destruct (Hf t0) as (_ & -> & [-> | ->]); [done | by apply Hclock].
  - intros members t Hok. unfold from_dict in Hok. invert_ok Hok. simpl.
    repeat match goal with
           | H : res_bind (py_getitem _ _) _ = Ok _ |- _ =>
               apply res_bind_Ok in H as (? & ? & ?)
           end.
    repeat match goal with
           | H : py_getitem _ _ = Ok _ |- _ =>
               simpl in H; destruct (dict_get _ members) eqn:?; [|done];
               injection H as <-
           end.
    repeat match goal with
           | H : py_datetime_fromisoformat ?v = Ok _ |- _ =>
               destruct v; try done; simpl in H;
               destruct (datetime_fromisoformat _) eqn:?; [|done];
               injection H as <-
           end.
    eauto 10.
Qed.

(** [update_task] with a [due_date] of the wrong type and neither title
    nor description: nothing has been assigned when [TypeError] is raised. *)
Lemma update_task_bad_due_date_alone
    (task_id : Z) (task : Task) (v : pyval) (completed : option bool)
    (self : TaskRepository) (w : World) :
  dict_get task_id (_tasks self) = Some task ->
  v <> PyNone -> (forall d, v <> PyDate d) ->
  update_task task_id None _SENTINEL (Supplied v) completed self w
  = (Raise TypeError, self, w).
Proof.
  intros Hget Hnone Hdate. unfold update_task. run_m. rewrite Hget. run_m.
  destruct v; try done. by destruct (Hdate d).
Qed.

End Properties.

(** ** Concrete runs *)

Lemma add_task_rejects_blank_title_run :
  strip "   " = EmptyString /\
  add_task "   " (PyStr "notes") None Sample.one_task Sample.empty_world
  = (Raise ValueError, Sample.one_task, Sample.empty_world).
Proof.
  split; [reflexivity|].
  apply add_task_rejects_blank_title. reflexivity.
Defined.

Lemma update_task_nothing_supplied_run :
  dict_get 1 (_tasks Sample.one_task) = Some Sample.report /\
  update_task 1 None _SENTINEL _SENTINEL None Sample.one_task Sample.empty_world
  = (Ok Sample.report, Sample.one_task, Sample.empty_world).
Proof.
  split; [reflexivity|].
  apply update_task_nothing_supplied. reflexivity.
Defined.

Lemma from_dict_completed_truth_value_run :
  from_dict (JObj Sample.report_members) = Ok Sample.report /\
  from_dict (JObj (dict_set "completed" (JStr "false") Sample.report_members))
  = Ok (set_completed true Sample.report).
Proof.
  split; [reflexivity|].
  apply (from_dict_completed_truth_value Sample.report_members Sample.report).
  reflexivity.
Defined.

(** C2, as stated, fails: a record whose [due_date] is the empty string,
    which [date.fromisoformat] rejects, is read without error and the task
    has no due date. *)
Lemma from_dict_accepts_empty_due_date :
  ~ (forall (members : list (string * json)) (s : string),
       dict_get "due_date" members = Some (JStr s) ->
       date_fromisoformat s = None ->
       exists e : exn, from_dict (JObj members) = Raise e).
Proof.
  intros Hclaim.
  destruct (Hclaim (dict_set "due_date" (JStr EmptyString) Sample.report_members)
                   EmptyString) as [e He]; [reflexivity | reflexivity |].
  vm_compute in He. discriminate He.
Qed.

Lemma from_dict_due_date_truth_value_run :
  from_dict (JObj Sample.report_members) = Ok Sample.report /\
  from_dict (JObj (dict_set "due_date" (JStr EmptyString) Sample.report_members))
  = Ok (set_due_date None Sample.report).
Proof.
  split; [reflexivity|].
  apply (from_dict_due_date_truth_value Sample.report_members Sample.report).
  reflexivity.
Defined.

Lemma load_sets_next_id_run :
  __init__ (Some "tasks.json") Sample.saved_world
  = (Ok tt, Sample.loaded, Sample.saved_world)
  /\ (forall t, t ∈ dict_values (_tasks Sample.loaded) -> id t < 3).
Proof.
  split; [reflexivity|].
  apply (load_sets_next_id (Some "tasks.json") Sample.saved_world
           Sample.loaded Sample.saved_world).
  reflexivity.
Defined.

Lemma ids_unique_and_increasing_run :
  __init__ (Some "tasks.json") Sample.saved_world
  = (Ok tt, Sample.loaded, Sample.saved_world)
  /\ match perform_all [CallDelete 2; CallAdd "Write docs" (PyStr EmptyString) None]
                       Sample.loaded Sample.saved_world with
     | (self1, w1) =>
         NoDup (map id (dict_values (_tasks self1)))
         /\ StronglySorted Z.lt
              (returned_ids
                 (add_tasks [("Ship feature", PyStr EmptyString, None);
                             ("   ", PyStr EmptyString, None);
                             ("Trim backlog", PyNone, None)] self1 w1))
         /\ NoDup
              (returned_ids
                 (add_tasks [("Ship feature", PyStr EmptyString, None);
                             ("   ", PyStr EmptyString, None);
                             ("Trim backlog", PyNone, None)] self1 w1))
     end.
Proof.
  split; [reflexivity|].
  apply (ids_unique_and_increasing (Some "tasks.json") Sample.saved_world
           Sample.loaded Sample.saved_world).
  reflexivity.
Defined.

Lemma sample_keyed_by_id : keyed_by_id (_tasks Sample.two_tasks).
Proof.
  split.
  - apply NoDup_cons. split; [|apply NoDup_singleton].
    intros Hin%list_elem_of_singleton. discriminate Hin.
  - by repeat constructor.
Qed.

Lemma sample_iso_faithful :
  Forall iso_faithful (dict_values (_tasks Sample.two_tasks)).
Proof. repeat constructor. Qed.

Lemma save_then_load_round_trip_run :
  _storage_path Sample.two_tasks = Some "tasks.json"
  /\ match _save Sample.two_tasks Sample.empty_world with
     | (saved, self1, w1) =>
         saved = Ok tt /\ self1 = Sample.two_tasks
         /\ match __init__ (Some "tasks.json") w1 with
            | (constructed, fresh, _) =>
                constructed = Ok tt
                /\ (forall k, dict_get k (_tasks fresh)
                              = dict_get k (_tasks Sample.two_tasks))
                /\ list_tasks fresh None None
                   = list_tasks Sample.two_tasks None None
            end
     end.
Proof.
  split; [reflexivity|].
  apply (save_then_load_round_trip Sample.two_tasks Sample.empty_world "tasks.json").
  - reflexivity.
  - exact sample_keyed_by_id.
  - exact sample_iso_faithful.
Defined.

(** The listing that the fresh repository of the run above gives. *)
Example reloaded_listing :
  list_tasks Sample.loaded None None = [Sample.report; Sample.release]
  /\ list_tasks Sample.two_tasks None None = [Sample.report; Sample.release].
Proof. split; reflexivity. Qed.

Lemma datetime_le_refl (t : datetime) : datetime_le t t = true.
Proof.
  destruct t as [[y m d] h mi sec us]. simpl.
  unfold CPython.datetime_cmp, CPython.date_cmp. simpl.
  by rewrite !Z.compare_refl.
Qed.

Lemma timestamps_ordered_by_add_and_update_run :
  (forall t : datetime, datetime_le t t = true)
  /\ match add_task "Write docs" (PyStr EmptyString) None
                    Sample.one_task Sample.empty_world with
     | (r, self', _) =>
         Forall ordered (dict_values (_tasks self'))
         /\ (forall task, r = Ok task -> updated_at task = created_at task)
     end.
Proof.
  split; [exact datetime_le_refl|].
  apply (@timestamps_ordered_by_add_and_update CPython.calendar CPython.runtime
           datetime_le_refl).
  repeat constructor.
Defined.

(** C3, as stated, fails: a repository constructed over a file whose one
    record has [updated_at] a day before [created_at] holds that task as
    it is. *)
Lemma loaded_task_updated_before_created :
  __init__ (Some "tasks.json") Sample.backdated_world
  = (Ok tt, mkRepo (Some "tasks.json") [(1, Sample.backdated)] 2,
     Sample.backdated_world)
  /\ datetime_le (created_at Sample.backdated) (updated_at Sample.backdated)
     = false.
Proof. split; reflexivity. Qed.

(** Why the clock is mentioned in the statement on [update_task]: with a
    clock that has been set back behind the creation of the task, a
    successful update leaves [updated_at] before [created_at]. *)
Example update_task_clock_set_back :
  match update_task 1 None _SENTINEL _SENTINEL (Some true) Sample.one_task
          (mkWorld ∅ [] (fun _ => CPython.mkDateTime (CPython.mkDate 2024 5 19)
                                                     12 0 0 0) 0) with
  | (r, _, _) =>
      exists task, r = Ok task
                   /\ datetime_le (created_at task) (updated_at task) = false
  end.
Proof. vm_compute. by eexists. Qed.

(** C1: the run that shows the defect.  [update_task] is called on task 1
    with a new description and with a string as [due_date].  It raises
    [TypeError]; the world (backing file, clock) is as before, the task's
    [updated_at] is as before, and the task in the collection already has
    the new description. *)
Theorem update_task_type_error_after_assignment :
  update_task 1 None (Supplied (PyStr "Compile yearly metrics"))
              (Supplied (PyStr "2024-01-01")) None
              Sample.one_task Sample.empty_world
  = (Raise TypeError,
     mkRepo (Some "tasks.json")
            [(1, set_description "Compile yearly metrics" Sample.report)] 2,
     Sample.empty_world)
  /\ description Sample.report = "Collect metrics"
  /\ description (set_description "Compile yearly metrics" Sample.report)
     = "Compile yearly metrics".
Proof. repeat split. Qed.

(** ** The scenario of the test suite, run on the embedding *)

Example add_trims_title :
  match add_task "  Buy milk  " (PyStr " 2 litres ") None
                 (mkRepo None [] 1) Sample.empty_world with
  | (r, self, _) =>
      r = Ok (mkTask 1 "Buy milk" "2 litres" false None
                     (Sample.noon 0 0) (Sample.noon 0 0))
      /\ _next_id self = 2
  end.
Proof. vm_compute. split; reflexivity. Qed.

Example end_to_end :
  match perform_all
          [ CallAdd "Write docs" (PyStr EmptyString) None;
            CallAdd "Ship feature" (PyStr EmptyString)
                    (Some (CPython.mkDate 2024 6 1));
            CallUpdate 2 None _SENTINEL _SENTINEL (Some true);
            CallDelete 1 ]
          (mkRepo (Some "tasks.json") [] 1) Sample.empty_world with
  | (self, w) =>
      map id (list_tasks self None None) = [2]
      /\ map id (list_tasks self (Some true) None) = [2]
      /\ get_task 1 self w = (Raise (KeyError (JInt 1)), self, w)
      /\ List.length (journal w) = 4%nat
      /\ __init__ (Some "tasks.json") w
         = (Ok tt, mkRepo (Some "tasks.json") (_tasks self) 3, w)
  end.
Proof. vm_compute. repeat split. Qed.

Example update_clears_fields :
  match update_task 1 None (Supplied (PyStr EmptyString)) (Supplied PyNone) None
                    Sample.one_task (mkWorld ∅ [] Sample.wall_clock 3) with
  | (r, _, _) =>
      r = Ok (mkTask 1 "Prepare report" EmptyString false None
                     (Sample.noon 0 0) (Sample.noon 0 3))
  end.
Proof. vm_compute. reflexivity. Qed.

Example list_due_before :
  map id (list_tasks Sample.two_tasks None (Some (CPython.mkDate 2024 6 1))) = [1]
  /\ map id (list_tasks Sample.two_tasks None (Some (CPython.mkDate 2024 5 31))) = []
  /\ map id (list_tasks Sample.two_tasks (Some false) None) = [1]
  /\ map id (list_tasks Sample.two_tasks None None) = [1; 2].
Proof. vm_compute. repeat split. Qed.

(** * Further properties of the repository *)

Section MoreProperties.
Context {cal : Calendar} {rt : Builtins}.

(** ** Lookups after an assignment *)

Lemma dict_get_alter_ne {V} (f : V -> V) (k k' : Z) (d : dict Z V) :
  k <> k' -> dict_get k' (dict_alter f k d) = dict_get k' d.
Proof.
  intros Hne. induction d as [|[k0 v0] d IH]; simpl; [done|].
  destruct (decide (k = k0)) as [->|Hk]; simpl.
  - by rewrite !decide_False by (by intros ->).
  - destruct (decide (k' = k0)); [done | apply IH].
Qed.

Lemma dict_get_del_eq {V} (k : Z) (d : dict Z V) :
  NoDup (dict_keys d) -> dict_get k (dict_del k d) = None.
Proof.
  induction d as [|[k0 v0] d IH]; simpl; [done|].
  intros [Hnotin Hnodup]%NoDup_cons.
  destruct (decide (k = k0)) as [->|Hk]; simpl.
  - by apply dict_get_None.
  - rewrite decide_False by done. by apply IH.
Qed.

Lemma dict_get_del_ne {V} (k k' : Z) (d : dict Z V) :
  k <> k' -> dict_get k' (dict_del k d) = dict_get k' d.
Proof.
  intros Hne. induction d as [|[k0 v0] d IH]; simpl; [done|].
  destruct (decide (k = k0)) as [->|Hk]; simpl.
  - by rewrite decide_False by (by intros ->).
  - destruct (decide (k' = k0)); [done | apply IH].
Qed.

(** ** Adding *)

Lemma insert_by_id_app_last (x t : Task) (l : list Task) :
  id x <= id t -> insert_by_id x (l ++ [t]) = insert_by_id x l ++ [t].
Proof.
  intros Hle. induction l as [|u l IH]; simpl.
  - by rewrite (proj2 (Z.leb_le _ _) Hle).
  - destruct (id x <=? id u); [done | by rewrite IH].
Qed.

Lemma sorted_app_last (l : list Task) (t : Task) :
  Forall (fun u => id u <= id t) l -> sorted (l ++ [t]) = sorted l ++ [t].
Proof.
  induction 1 as [|u l Hle _ IH]; simpl; [done|].
  rewrite IH. by apply insert_by_id_app_last.
Qed.

Lemma repo_ok_fresh (self : TaskRepository) :
  repo_ok self -> _next_id self ∉ dict_keys (_tasks self).
Proof.
  intros [_ Hbound] Hin. rewrite Forall_forall in Hbound.
  specialize (Hbound _ Hin). simpl in Hbound. lia.
Qed.

Lemma repo_ok_ids_below (self : TaskRepository) :
  repo_ok self -> Forall (fun t => id t < _next_id self) (dict_values (_tasks self)).
Proof.
  intros [[_ Hkeyed] Hbound]. unfold dict_values, dict_keys in *.
  rewrite Forall_map in *. rewrite Forall_forall in *.
  intros kv Hkv. rewrite (Hkeyed _ Hkv). by apply Hbound.
Qed.

(** X1: [add_task] with a title that is not blank and a description that
    is a string or [None] returns.  The task it returns has the counter as
    id, the stripped title and description, [completed] false, the due date
    given and the clock reading for both timestamps; afterwards the counter
    is one higher, the task is bound to its id, every other binding is as
    before, the listing is the former listing followed by the new task, the
    clock has been read once and the backing file holds the new listing. *)
Theorem add_task_success
    (title : string) (description : pyval) (text : string)
    (due_date : option date) (self : TaskRepository) (w : World) :
  nonempty (strip title) = true ->
  or_empty_strip description = Ok text ->
  repo_ok self ->
  exists self' w',
    add_task title description due_date self w
    = (Ok (mkTask (_next_id self) (strip title) text false due_date
                  (clock w (ticks w)) (clock w (ticks w))), self', w')
    /\ _next_id self' = _next_id self + 1
    /\ dict_get (_next_id self) (_tasks self')
       = Some (mkTask (_next_id self) (strip title) text false due_date
                      (clock w (ticks w)) (clock w (ticks w)))
    /\ (forall k, k <> _next_id self ->
                  dict_get k (_tasks self') = dict_get k (_tasks self))
    /\ list_tasks self' None None
       = list_tasks self None None
         ++ [mkTask (_next_id self) (strip title) text false due_date
                    (clock w (ticks w)) (clock w (ticks w))]
    /\ ticks w' = S (ticks w)
    /\ in_sync self' w'.
Proof.
  intros Htitle Hdesc Hok.
  set (task := mkTask (_next_id self) (strip title) text false due_date
                      (clock w (ticks w)) (clock w (ticks w))).
  set (self' := mkRepo (_storage_path self)
                       (dict_set (_next_id self) task (_tasks self))
                       (_next_id self + 1)).
  assert (list_tasks self' None None = list_tasks self None None ++ [task])
    as Hlisting.
  { unfold list_tasks, self'. simpl.
    rewrite dict_set_fresh by (by apply repo_ok_fresh).
    unfold dict_values. rewrite map_app. simpl.
    apply sorted_app_last. eapply Forall_impl; [by apply repo_ok_ids_below|].
    intros u Hu. simpl in *. lia. }
  assert (exists w', add_task title description due_date self w = (Ok task, self', w')
                     /\ ticks w' = S (ticks w) /\ in_sync self' w')
    as (w' & Hrun & Hticks & Hsync).
  { unfold add_task. rewrite Htitle. simpl. unfold utcnow, _save, write_json.
    run_m. rewrite Hdesc. simpl. fold task. fold self'.
    unfold in_sync. simpl. destruct (_storage_path self) as [path|]; simpl.
    - eexists. split; [reflexivity|]. simpl. split; [done|].
      by rewrite lookup_insert_eq.
    - eexists. by split. }
  exists self', w'. split; [done|]. split; [done|]. split; [|split].
  - simpl. apply dict_get_set_eq.
  - intros k Hne. simpl. by apply dict_get_set_ne.
  - done.
Qed.

(** ** Updating *)

(** X2: [update_task] on a task that exists, with a title that is not
    blank, a description that is a string or [None] and a due date that is
    a date or [None] (each only where supplied), returns.  The task it
    returns is the one bound to the id afterwards; it has the id and
    [created_at] of the task at the call, each supplied field as given
    (title and description stripped) and every other field as before;
    [updated_at] is the clock reading when a field was supplied.  No other
    binding changes.  When a field was supplied the clock has been read
    once and the backing file holds the new listing; when none was, nothing
    has changed. *)
Theorem update_task_success
    (task_id : Z) (t0 : Task) (ti : option string) (de du : arg pyval)
    (co : option bool) (self : TaskRepository) (w : World) :
  dict_get task_id (_tasks self) = Some t0 ->
  (forall s, ti = Some s -> nonempty (strip s) = true) ->
  (forall v, de = Supplied v -> exists text, or_empty_strip v = Ok text) ->
  (forall v, du = Supplied v -> v = PyNone \/ exists d, v = PyDate d) ->
  exists t1 self' w',
    update_task task_id ti de du co self w = (Ok t1, self', w')
    /\ id t1 = id t0 /\ created_at t1 = created_at t0
    /\ title t1 = match ti with Some s => strip s | None => title t0 end
    /\ match de with
       | Supplied v => or_empty_strip v = Ok (description t1)
       | _SENTINEL => description t1 = description t0
       end
    /\ due_date t1 = match du with
                     | Supplied (PyDate d) => Some d
                     | Supplied _ => None
                     | _SENTINEL => due_date t0
                     end
    /\ completed t1 = match co with Some c => c | None => completed t0 end
    /\ updated_at t1 = (if any_supplied ti de du co
                        then clock w (ticks w) else updated_at t0)
    /\ dict_get task_id (_tasks self') = Some t1
    /\ (forall k, k <> task_id ->
                  dict_get k (_tasks self') = dict_get k (_tasks self))
    /\ (if any_supplied ti de du co
        then ticks w' = S (ticks w) /\ in_sync self' w'
        else self' = self /\ w' = w).
Proof.
  intros Hget Hti Hde Hdu.
  destruct ti as [s|]; [specialize (Hti s eq_refl)|clear Hti];
  (destruct de as [|v]; [clear Hde | destruct (Hde v eq_refl) as [text Htext]]);
  (destruct du as [|v']; [clear Hdu | destruct (Hdu v' eq_refl) as [->|[d ->]]]);
  destruct co as [c|];
  unfold update_task, utcnow, _save, write_json; run_m; rewrite Hget; simpl;
  rewrite ?Hti, ?Htext; simpl.
  all: rewrite ?dict_alter_compose, ?dict_get_alter_eq, ?Hget; simpl.
  all: try (erewrite dict_set_same by (by rewrite dict_get_alter_eq, Hget)).
  all: destruct (_storage_path self) as [path|] eqn:Hpath; simpl.
  all: rewrite ?dict_get_alter_eq, ?Hget; simpl.
  all: eexists _, _, _; (split; [reflexivity|]); simpl.
  all: unfold in_sync; simpl; rewrite ?Hpath, ?lookup_insert_eq.
  all: rewrite ?dict_get_alter_eq, ?Hget; simpl.
  all: repeat split; try done.
  all: try (by destruct self).
  all: intros k Hne; by apply dict_get_alter_ne.
Qed.

(** X3: [update_task] on an id that is not held raises [KeyError] with the
    id, and on a held id with a title that is blank once stripped raises
    [ValueError]; both before anything is assigned, whatever the other
    arguments are: the repository object and the world are as before. *)
Theorem update_task_rejected_early
    (task_id : Z) (ti : option string) (de du : arg pyval) (co : option bool)
    (self : TaskRepository) (w : World) :
  dict_get task_id (_tasks self) = None
  \/ (exists s, ti = Some s /\ strip s = EmptyString) ->
  update_task task_id ti de du co self w
  = (Raise (match dict_get task_id (_tasks self) with
            | None => KeyError (JInt task_id)
            | Some _ => ValueError
            end), self, w).
Proof.
  intros Hcase. unfold update_task. run_m.
  destruct (dict_get task_id (_tasks self)) as [t0|]; [|done].
  destruct Hcase as [|(s & -> & Hblank)]; [done|].
  by rewrite Hblank.
Qed.

(** X4: whatever the arguments and the outcome, [update_task] leaves the
    storage path, the counter, the keys and their order, and every task
    other than the addressed one as they were, and the addressed task keeps
    its id and its [created_at]. *)
Theorem update_task_touches_one_task
    (task_id : Z) (ti : option string) (de du : arg pyval) (co : option bool)
    (self : TaskRepository) (w : World) :
  match update_task task_id ti de du co self w with
  | (_, self', _) =>
      _storage_path self' = _storage_path self
      /\ _next_id self' = _next_id self
      /\ dict_keys (_tasks self') = dict_keys (_tasks self)
      /\ (forall k, k <> task_id ->
                    dict_get k (_tasks self') = dict_get k (_tasks self))
      /\ (forall t1, dict_get task_id (_tasks self') = Some t1 ->
                     exists t0, dict_get task_id (_tasks self) = Some t0
                                /\ id t1 = id t0
                                /\ created_at t1 = created_at t0)
  end.
Proof.
  pose proof (update_task_frame task_id self w ti de du co self w
                (conj eq_refl eq_refl)) as Hframe.
  destruct (update_task task_id ti de du co self w) as [[r self'] w'].
  destruct Hframe as (f & Hf & ->). simpl. repeat split.
  - apply dict_keys_alter.
  - intros k Hne. by apply dict_get_alter_ne.
  - intros t1. rewrite dict_get_alter_eq.
    destruct (dict_get task_id (_tasks self)) as [t0|]; [|done].
    intros [= <-]. exists t0. destruct (Hf t0) as (? & ? & _). auto.
Qed.

(** X5: a call of [update_task] that raises has read no clock and written
    no file, and in the collection it leaves, the addressed task differs
    from the one at the call in title and description at most: its
    [completed], [due_date] and both timestamps are as they were. *)
Theorem update_task_failure_effects
    (task_id : Z) (ti : option string) (de du : arg pyval) (co : option bool)
    (self : TaskRepository) (w : World)
    (e : exn) (self' : TaskRepository) (w' : World) :
  update_task task_id ti de du co self w = (Raise e, self', w') ->
  w' = w
  /\ (forall t1, dict_get task_id (_tasks self') = Some t1 ->
                 exists t0, dict_get task_id (_tasks self) = Some t0
                            /\ completed t1 = completed t0
                            /\ due_date t1 = due_date t0
                            /\ created_at t1 = created_at t0
                            /\ updated_at t1 = updated_at t0).
Proof.
  intros Hrun.
  pose proof (update_task_raise_frame task_id self w ti de du co self w
                (conj eq_refl eq_refl)) as Hframe.
  rewrite Hrun in Hframe. destruct (Hframe e eq_refl) as (-> & f & Hf & ->).
  split; [done|]. intros t1. simpl. rewrite dict_get_alter_eq.
  destruct (dict_get task_id (_tasks self)) as [t0|]; [|done].
  intros [= <-]. exists t0. destruct (Hf t0) as (? & ? & ? & ? & ?). auto.
Qed.

(** ** Listing *)

Lemma filter_insert_by_id (P : Task -> bool) (t : Task) (l : list Task) :
  StronglySorted by_id l ->
  List.filter P (insert_by_id t l)
  = if P t then insert_by_id t (List.filter P l) else List.filter P l.
Proof.
  induction 1 as [|u l Hsorted IH Hall]; simpl.
  - by destruct (P t).
  - destruct (Z.leb_spec (id t) (id u)) as [Hle|Hgt]; simpl.
    + destruct (P t); [|done]. destruct (P u); simpl.
      * by rewrite (proj2 (Z.leb_le _ _) Hle).
      * rewrite insert_by_id_head; [done|].
        apply Forall_forall. intros x [Hx _]%list_elem_of_In%filter_In.
        rewrite Forall_forall in Hall. apply list_elem_of_In, Hall in Hx.
        unfold by_id in *. lia.
    + rewrite IH. destruct (P u), (P t); simpl; try done.
      by rewrite (proj2 (Z.leb_gt _ _) Hgt).
Qed.

Lemma sorted_filter (P : Task -> bool) (l : list Task) :
  sorted (List.filter P l) = List.filter P (sorted l).
Proof.
  induction l as [|t l IH]; simpl; [done|].
  rewrite filter_insert_by_id by apply sorted_sorted.
  destruct (P t); simpl; by rewrite IH.
Qed.

Lemma filter_twice {A} (P Q : A -> bool) (l : list A) :
  List.filter Q (List.filter P l) = List.filter (fun x => P x && Q x) l.
Proof.
  induction l as [|x l IH]; simpl; [done|].
  destruct (P x); simpl; [|done]. destruct (Q x); by rewrite IH.
Qed.

(** X6: a filtered listing is the full listing with the tasks that do not
    pass left out: the tasks that pass appear in the order they have in the
    full listing, also among tasks with equal ids. *)
Theorem list_tasks_is_filtered_listing
    (self : TaskRepository) (co : option bool) (limit : option date) :
  list_tasks self co limit
  = List.filter
      (fun t =>
         match co with
         | Some c => Bool.eqb (completed t) c
         | None => true
         end
         && match limit with
            | Some l => match due_date t with
                        | Some d => date_le d l
                        | None => false
                        end
            | None => true
            end)
      (list_tasks self None None).
Proof.
  unfold list_tasks. destruct co as [c|], limit as [l|]; simpl.
  - rewrite <- sorted_filter. f_equal. by rewrite filter_twice.
  - rewrite <- sorted_filter. f_equal. apply List.filter_ext.
    intros t. unfold completed_is. by rewrite andb_true_r.
  - by rewrite <- sorted_filter.
  - symmetry. clear. generalize (sorted (dict_values (_tasks self))).
    intros ts. induction ts as [|t ts IH]; simpl; [done | by rewrite IH].
Qed.

Lemma sorted_strict (l : list Task) :
  StronglySorted by_id l -> NoDup (map id l) ->
  StronglySorted (fun a b => id a < id b) l.
Proof.
  induction 1 as [|t l _ IH Hall]; simpl; [constructor|].
  intros [Hnotin Hnodup]%NoDup_cons. constructor; [by apply IH|].
  rewrite Forall_forall in *. intros u Hu. specialize (Hall u Hu).
  unfold by_id in Hall. assert (id t <> id u); [|lia].
  intros Heq. apply Hnotin. rewrite Heq.
  apply list_elem_of_In, in_map, list_elem_of_In, Hu.
Qed.

Lemma keyed_by_id_held (d : dict Z Task) (t : Task) :
  keyed_by_id d -> (t ∈ dict_values d <-> dict_get (id t) d = Some t).
Proof.
  intros [Hnodup Hkeyed]. split.
  - intros Hin. apply dict_get_elem_of; [done|].
    apply list_elem_of_In, in_map_iff in Hin as ([k t'] & Heq & Hkv).
    simpl in Heq. subst t'. apply list_elem_of_In in Hkv.
    rewrite Forall_forall in Hkeyed. specialize (Hkeyed _ Hkv). simpl in Hkeyed.
    by subst k.
  - intros Hget%dict_get_Some. apply list_elem_of_In.
    change t with (snd (id t, t)). apply in_map. by apply list_elem_of_In.
Qed.

(** X7: in a collection keyed by id the full listing shows every held task
    exactly once: its ids increase strictly, and a task is listed exactly
    when it is the task bound to its id. *)
Theorem list_tasks_of_keyed_collection (self : TaskRepository) :
  keyed_by_id (_tasks self) ->
  StronglySorted (fun a b => id a < id b) (list_tasks self None None)
  /\ (forall t, t ∈ list_tasks self None None
                <-> dict_get (id t) (_tasks self) = Some t).
Proof.
  intros Hkeyed. split.
  - apply sorted_strict; [apply sorted_sorted|].
    unfold list_tasks. rewrite sorted_perm. by apply keyed_by_id_NoDup.
  - intros t. unfold list_tasks. rewrite sorted_perm.
    by apply keyed_by_id_held.
Qed.

(** ** Deleting and clearing *)

Lemma filter_all_pass {A} (P : A -> bool) (l : list A) :
  Forall (fun x => P x = true) l -> List.filter P l = l.
Proof.
  induction 1 as [|x l Hx _ IH]; simpl; [done|]. by rewrite Hx, IH.
Qed.

Lemma dict_del_values (k : Z) (d : dict Z Task) :
  keyed_by_id d ->
  dict_values (dict_del k d)
  = List.filter (fun t => negb (id t =? k)) (dict_values d).
Proof.
  intros [Hnodup Hkeyed]. induction d as [|[k0 t0] d IH]; simpl; [done|].
  apply NoDup_cons in Hnodup as [Hnotin Hnodup].
  apply Forall_cons in Hkeyed as [Hid Hkeyed]. simpl in Hid. rewrite Hid.
  destruct (decide (k = k0)) as [->|Hne]; simpl.
  - rewrite Z.eqb_refl. simpl. rewrite filter_all_pass; [done|].
    apply Forall_map. rewrite Forall_forall in *. intros [k t] Hkt.
    specialize (Hkeyed _ Hkt). simpl in *. rewrite Hkeyed.
    apply negb_true_iff, Z.eqb_neq.
    intros ->. apply Hnotin, list_elem_of_In.
    change k0 with (fst (k0, t)). by apply in_map, list_elem_of_In.
  - rewrite (proj2 (Z.eqb_neq k0 k)) by done. simpl. by rewrite IH.
Qed.

(** X8: [delete_task] on an id held by a collection keyed by id returns.
    Afterwards [get_task] on that id raises [KeyError] with the id, every
    other binding and the counter are as before, the listing is the former
    listing without the tasks of that id, and the backing file holds the
    new listing. *)
Theorem delete_task_success
    (task_id : Z) (t0 : Task) (self : TaskRepository) (w : World) :
  keyed_by_id (_tasks self) ->
  dict_get task_id (_tasks self) = Some t0 ->
  exists self' w',
    delete_task task_id self w = (Ok tt, self', w')
    /\ get_task task_id self' w' = (Raise (KeyError (JInt task_id)), self', w')
    /\ (forall k, k <> task_id ->
                  dict_get k (_tasks self') = dict_get k (_tasks self))
    /\ _next_id self' = _next_id self
    /\ list_tasks self' None None
       = List.filter (fun t => negb (id t =? task_id)) (list_tasks self None None)
    /\ in_sync self' w'.
Proof.
  intros Hkeyed Hget.
  set (self' := mkRepo (_storage_path self) (dict_del task_id (_tasks self))
                       (_next_id self)).
  assert (exists w', delete_task task_id self w = (Ok tt, self', w')
                     /\ in_sync self' w') as (w' & Hrun & Hsync).
  { unfold delete_task, _save, write_json. run_m. rewrite Hget. simpl.
    fold self'. unfold in_sync. simpl.
    destruct (_storage_path self) as [path|]; simpl.
    - eexists. split; [reflexivity|]. simpl. by rewrite lookup_insert_eq.
    - by eexists. }
  exists self', w'. split; [done|]. repeat split; [| | |done].
  - run_m. simpl. by rewrite dict_get_del_eq by apply Hkeyed.
  - intros k Hne. simpl. by apply dict_get_del_ne.
  - unfold list_tasks, self'. simpl.
    by rewrite <- sorted_filter, <- dict_del_values.
Qed.

(** X9: [clear] returns with an empty collection and the counter at 1,
    writes nothing, and leaves no backing file behind: a repository
    constructed on the same path afterwards is empty with the counter at 1.
    Without a storage path the world is as before. *)
Theorem clear_resets (self : TaskRepository) (w : World) :
  exists w',
    clear self w = (Ok tt, mkRepo (_storage_path self) [] 1, w')
    /\ journal w' = journal w
    /\ clock w' = clock w /\ ticks w' = ticks w
    /\ match _storage_path self with
       | Some path =>
           files w' = delete path (files w)
           /\ __init__ (Some path) w' = (Ok tt, mkRepo (Some path) [] 1, w')
       | None => w' = w
       end.
Proof.
  unfold clear, unlink. run_m. simpl.
  destruct (_storage_path self) as [path|] eqn:Hpath; simpl.
  - eexists. split; [reflexivity|]. simpl.
    split; [done|]. split; [done|]. split; [done|]. split; [done|].
    unfold __init__, _load. run_m. simpl. by rewrite lookup_delete_eq.
  - exists w. by repeat split.
Qed.

(** ** What no method touches *)

(** An invariant that does not look at the collection, the counter or
    the number of clock readings, and that [_save] keeps, is kept by every
    method that changes the repository. *)
Section Keeps.
Context (I : TaskRepository -> World -> Prop).
Hypothesis I_tasks :
  forall self w d n, I self w -> I (mkRepo (_storage_path self) d n) w.
Hypothesis I_tick :
  forall self w, I self w ->
    I self (mkWorld (files w) (journal w) (clock w) (S (ticks w))).
Hypothesis I_save : stable I _save.

Lemma keeps_setattr k g : stable I (setattr k g).
Proof. intros self w HI. run_m. by apply I_tasks. Qed.

Lemma keeps_setitem k t : stable I (setitem k t).
Proof. intros self w HI. run_m. by apply I_tasks. Qed.

Lemma keeps_set_next_id n : stable I (set_next_id n).
Proof. intros self w HI. run_m. by apply (I_tasks self w (_tasks self) n). Qed.

Lemma keeps_set_tasks d : stable I (set_tasks d).
Proof. intros self w HI. run_m. by apply I_tasks. Qed.

Lemma keeps_utcnow : stable I utcnow.
Proof. intros self w HI. by apply I_tick. Qed.

Lemma keeps_add_task title description due_date :
  stable I (add_task title description due_date).
Proof.
  unfold add_task. destruct (negb (nonempty (strip title))); [apply stable_raise|].
  apply stable_bind; [apply keeps_utcnow|]. intros now.
  apply stable_bind; [apply stable_get_self|]. intros self0.
  apply stable_bind; [apply stable_lift|]. intros text.
  apply stable_bind; [apply keeps_setitem|]. intros _.
  apply stable_bind; [apply keeps_set_next_id|]. intros _.
  apply stable_bind; [apply I_save|]. intros _. apply stable_ret.
Qed.

Lemma keeps_update_task task_id ti de du co :
  stable I (update_task task_id ti de du co).
Proof.
  unfold update_task.
  apply stable_bind; [apply stable_get_task|]. intros _.
  apply stable_bind; [|intros changed1].
  { destruct ti as [s|]; [|apply stable_ret].
    destruct (negb (nonempty (strip s))); [apply stable_raise|].
    apply stable_bind; [apply keeps_setattr | intros; apply stable_ret]. }
  apply stable_bind; [|intros changed2].
  { destruct de as [|v]; [apply stable_ret|].
    apply stable_bind; [apply stable_lift|]. intros text.
    apply stable_bind; [apply keeps_setattr | intros; apply stable_ret]. }
  apply stable_bind; [|intros changed3].
  { destruct du as [|v]; [apply stable_ret|].
    apply stable_bind; [|intros; apply stable_ret].
    destruct v; first [apply stable_raise | apply keeps_setattr]. }
  apply stable_bind; [|intros changed4].
  { destruct co as [c|]; [|apply stable_ret].
    apply stable_bind; [apply keeps_setattr | intros; apply stable_ret]. }
  apply stable_bind; [|intros _; apply stable_get_task].
  destruct changed4; [|apply stable_ret].
  apply stable_bind; [apply keeps_utcnow|]. intros now.
  apply stable_bind; [apply keeps_setattr|]. intros _.
  apply stable_bind; [apply stable_get_task|]. intros task.
  apply stable_bind; [apply keeps_setitem|]. intros _. apply I_save.
Qed.

Lemma keeps_delete_task task_id : stable I (delete_task task_id).
Proof.
  unfold delete_task. apply stable_bind; [apply stable_get_self|]. intros self0.
  destruct (dict_get task_id (_tasks self0)); [|apply stable_raise].
  apply stable_bind; [apply keeps_set_tasks | intros _; apply I_save].
Qed.
End Keeps.

Lemma own_file_save (sp : option string) (w0 : World) :
  stable (own_file sp w0) _save.
Proof.
  intros self w (Hpath & Hother & Hnone & Hclock). unfold _save, write_json.
  run_m. rewrite Hpath. destruct sp as [p|]; simpl; [|done].
  split; [done|]. split; [|by split].
  intros q Hq. simpl. rewrite lookup_insert_ne by congruence. by apply Hother.
Qed.

Lemma own_file_perform (sp : option string) (w0 : World) (c : call) s v :
  own_file sp w0 s v -> own_file sp w0 (perform c s v).1 (perform c s v).2.
Proof.
  assert (forall s v d n, own_file sp w0 s v ->
            own_file sp w0 (mkRepo (_storage_path s) d n) v) as Htasks
    by (by intros ? ? ? ? ?).
  assert (forall s v, own_file sp w0 s v ->
            own_file sp w0 s
              (mkWorld (files v) (journal v) (clock v) (S (ticks v)))) as Htick
    by (by intros ? ? ?).
  pose proof (own_file_save sp w0) as Hsave.
  intros HI. destruct c as [ti de du|k ti de du co|k|]; simpl; unfold state_after.
  - pose proof (keeps_add_task _ Htasks Htick Hsave ti de du s v HI) as H.
    by destruct (add_task _ _ _ s v) as [[? ?] ?].
  - pose proof (keeps_update_task _ Htasks Htick Hsave k ti de du co s v HI) as H.
    by destruct (update_task _ _ _ _ _ s v) as [[? ?] ?].
  - pose proof (keeps_delete_task _ Htasks Hsave k s v HI) as H.
    by destruct (delete_task _ s v) as [[? ?] ?].
  - destruct HI as (Hpath & Hother & Hnone & Hclock).
    unfold clear, unlink. run_m. simpl.
    destruct (_storage_path s) as [p|] eqn:Hs; simpl; [|done].
    split; [done|]. split; [|split; [|done]].
    + intros q Hq. simpl. rewrite lookup_delete_ne by congruence.
      by apply Hother.
    + intros Hnone'. congruence.
Qed.

Lemma own_file_perform_all (sp : option string) (w0 : World) calls s v :
  own_file sp w0 s v ->
  own_file sp w0 (perform_all calls s v).1 (perform_all calls s v).2.
Proof.
  revert s v. induction calls as [|c calls IH]; intros s v HI; simpl; [done|].
  pose proof (own_file_perform sp w0 c s v HI) as Hstep.
  destruct (perform c s v) as [s' v']. by apply IH.
Qed.

(** X10: through any series of calls a repository keeps its storage path
    and touches no file but the one at that path; a repository without a
    storage path touches no file and writes nothing.  The clock is only
    read. *)
Theorem only_own_file_touched
    (calls : list call) (self : TaskRepository) (w : World) :
  match perform_all calls self w with
  | (self', w') =>
      _storage_path self' = _storage_path self
      /\ (forall q, _storage_path self <> Some q -> files w' !! q = files w !! q)
      /\ (_storage_path self = None ->
          files w' = files w /\ journal w' = journal w)
      /\ clock w' = clock w
  end.
Proof.
  pose proof (own_file_perform_all (_storage_path self) w calls self w) as H.
  destruct (perform_all calls self w) as [self' w']. by apply H.
Qed.

(** ** Constructing a repository *)

Lemma load_world_unchanged (sp : option string) (w0 : World) :
  stable (fun self w => _storage_path self = sp /\ w = w0) _load.
Proof.
  assert (forall k t, stable (fun self w => _storage_path self = sp /\ w = w0)
                             (setitem k t)) as Hsetitem.
  { intros k t self w [Hpath ->]. run_m. by split. }
  unfold _load. apply stable_bind; [apply stable_get_self|]. intros self0.
  apply stable_bind; [apply stable_get_world|]. intros w1.
  destruct (_storage_path self0) as [path|]; [|apply stable_ret].
  destruct (files w1 !! path) as [[|payload]|];
    [apply stable_raise| |apply stable_ret].
  apply stable_bind; [apply stable_lift|]. intros items.
  apply stable_bind.
  - apply stable_for_each. intros item.
    apply stable_bind; [apply stable_lift|]. intros task. apply Hsetitem.
  - intros _. apply stable_bind; [apply stable_get_self|]. intros self1.
    intros self w2 [Hpath ->]. run_m. by split.
Qed.

(** X11: constructing a repository only reads: whatever the outcome, the
    world is as before.  Without a storage path, or with a path at which
    there is no file, the construction returns an empty collection with the
    counter at 1. *)
Theorem init_only_reads (storage_path : option string) (w : World) :
  match __init__ storage_path w with
  | (r, self, w') =>
      w' = w
      /\ _storage_path self = storage_path
      /\ ((forall path, storage_path = Some path -> files w !! path = None) ->
          r = Ok tt /\ _tasks self = [] /\ _next_id self = 1)
  end.
Proof.
  pose proof (load_world_unchanged storage_path w
                (mkRepo storage_path [] 1) w (conj eq_refl eq_refl)) as Hload.
  unfold __init__. destruct storage_path as [path|]; [|by repeat split].
  destruct (_load (mkRepo (Some path) [] 1) w) as [[r self] w'] eqn:Hrun.
  destruct Hload as [Hpath ->]. split; [done|]. split; [done|].
  intros Hmissing. specialize (Hmissing path eq_refl).
  revert Hrun. unfold _load. run_m. simpl. rewrite Hmissing.
  by intros [= <- <-].
Qed.

(** X12: what the top level of the backing file may be, other than a
    list with items.  Text that is not JSON raises [JSONDecodeError]; null,
    a boolean or a number raises [TypeError]; an empty list, an empty object
    and an empty string all give an empty collection with the counter at 1;
    an object with members and a string with characters raise
    [AttributeError], as their keys and characters are taken for records.
    No repository is returned on an exception, and the world is as
    before. *)
Theorem load_top_level (path : string) (w : World) (content : file) :
  files w !! path = Some content ->
  (forall item rest, content <> Document (JList (item :: rest))) ->
  __init__ (Some path) w
  = (match content with
     | Unparsable => Raise JSONDecodeError
     | Document (JNull | JBool _ | JInt _) => Raise TypeError
     | Document (JList _ | JObj [] | JStr EmptyString) => Ok tt
     | Document (JObj (_ :: _) | JStr (String _ _)) => Raise AttributeError
     end, mkRepo (Some path) [] 1, w).
Proof.
  intros Hfile Hshape. unfold __init__, _load. run_m. simpl. rewrite Hfile.
  destruct content as [|[| | |[|c s]|[|item rest]|[|[k v] members]]]; try done.
  by destruct (Hshape item rest).
Qed.

(** X13: the first record of the file that [from_dict] rejects aborts the
    construction with the exception [from_dict] raised: the records after
    it are not looked at, no repository is returned and the world is as
    before. *)
Theorem load_stops_at_rejected_record
    (path : string) (w : World) (good rest : list json) (bad : json) (e : exn) :
  files w !! path = Some (Document (JList (good ++ bad :: rest))) ->
  Forall (fun item => exists t, from_dict item = Ok t) good ->
  from_dict bad = Raise e ->
  exists self', __init__ (Some path) w = (Raise e, self', w).
Proof.
  intros Hfile Hgood Hbad. unfold __init__, _load.
  destruct (load_loop_raises good rest bad e (mkRepo (Some path) [] 1) w
              Hgood Hbad) as [self' Hloop].
  revert Hloop. run_m. simpl. rewrite Hfile. simpl. intros ->. by eexists.
Qed.

Lemma load_loop_reads (items : list json) (ts : list Task) path d0 n w :
  read_all items = Ok ts ->
  for_each items
    (fun item => bind (lift (from_dict item)) (fun task => setitem (id task) task))
    (mkRepo path d0 n) w
  = (Ok tt, mkRepo path (foldl (fun d t => dict_set (id t) t d) d0 ts) n, w).
Proof.
  revert ts d0. induction items as [|item items IH]; intros ts d0; simpl.
  - by intros [= <-].
  - destruct (from_dict item) as [t|e] eqn:Hitem; simpl; [|done].
    destruct (read_all items) as [ts'|e]; simpl; [|done].
    intros [= <-]. run_m. simpl.
    specialize (IH ts' (dict_set (id t) t d0) eq_refl). revert IH. run_m.
    by intros ->.
Qed.

Lemma foldl_dict_set_get (ts : list Task) (d0 : dict Z Task) (k : Z) :
  dict_get k (foldl (fun d t => dict_set (id t) t d) d0 ts)
  = match last_with_id k ts with
    | Some t => Some t
    | None => dict_get k d0
    end.
Proof.
  revert d0. induction ts as [|t ts IH]; intros d0; simpl; [done|].
  rewrite IH. destruct (last_with_id k ts); [done|].
  destruct (Z.eqb_spec (id t) k) as [<-|Hne].
  - apply dict_get_set_eq.
  - by apply dict_get_set_ne.
Qed.

(** X14: when every record of the file reads, the construction returns,
    and each id is bound to the task of the last record that has this id: a
    later record replaces an earlier one with the same id.  The collection
    is keyed by id and the world is as before. *)
Theorem load_keeps_last_record
    (path : string) (w : World) (items : list json) (ts : list Task) :
  files w !! path = Some (Document (JList items)) ->
  read_all items = Ok ts ->
  exists self,
    __init__ (Some path) w = (Ok tt, self, w)
    /\ (forall k, dict_get k (_tasks self) = last_with_id k ts)
    /\ keyed_by_id (_tasks self).
Proof.
  intros Hfile Hread.
  pose proof (load_loop_reads items ts (Some path) [] 1 w Hread) as Hloop.
  assert (exists self, __init__ (Some path) w = (Ok tt, self, w)
                       /\ _tasks self
                          = foldl (fun d t => dict_set (id t) t d) [] ts)
    as (self & Hinit & Htasks).
  { unfold __init__, _load. revert Hloop. run_m. simpl. rewrite Hfile. simpl.
    intros ->. by eexists. }
  exists self. split; [done|]. split.
  - intros k. rewrite Htasks, foldl_dict_set_get. simpl.
    by destruct (last_with_id k ts).
  - by destruct (init_spec _ _ _ _ Hinit) as (? & _).
Qed.

(** ** Records *)

Ltac split_ok H :=
  repeat (apply res_bind_Ok in H as (? & ? & H)); injection H as <-.

(** X15: [from_dict] returns a task only for an object that has the
    members [id], [title], [created_at] and [updated_at], the last two
    being strings; the id of the task is [int] of the [id] member, its
    title is [str] of the [title] member, and its description is [str] of
    the [description] member, or empty when the object has none. *)
Theorem from_dict_required_members (payload : json) (t : Task) :
  from_dict payload = Ok t ->
  exists members v_id v_title c u,
    payload = JObj members
    /\ dict_get "id" members = Some v_id /\ py_int v_id = Ok (id t)
    /\ dict_get "title" members = Some v_title /\ title t = py_str v_title
    /\ description t = match dict_get "description" members with
                       | Some v => py_str v
                       | None => EmptyString
                       end
    /\ dict_get "created_at" members = Some (JStr c)
    /\ dict_get "updated_at" members = Some (JStr u).
Proof.
  intros Hok. destruct payload as [| | | | |members]; try done.
  exists members. unfold from_dict in Hok. split_ok Hok. simpl.
  repeat match goal with
         | H : res_bind (py_getitem _ _) _ = Ok _ |- _ =>
             apply res_bind_Ok in H as (? & ? & ?)
         | H : res_bind (py_get _ _ _) _ = Ok _ |- _ =>
             apply res_bind_Ok in H as (? & ? & ?)
         end.
  repeat match goal with
         | H : py_getitem _ _ = Ok _ |- _ =>
             simpl in H; destruct (dict_get _ members) eqn:?; [|done];
             injection H as <-
         | H : py_get _ "description" _ = Ok _ |- _ =>
             simpl in H; injection H as <-
         | H : Ok _ = Ok _ |- _ => injection H as <-
         end.
  repeat match goal with
         | H : py_datetime_fromisoformat ?v = Ok _ |- _ =>
             destruct v; try done; clear H
         end.
  do 4 eexists. split; [done|].
  repeat (split; [done|]).
  split; [|by split]. by destruct (dict_get "description" members).
Qed.

(** X16: a task whose dates and timestamps [fromisoformat] reads back is
    recovered from its record: [from_dict] of [to_dict] returns the task,
    so that two such tasks with the same record are the same task. *)
Theorem task_record_round_trip (t : Task) :
  iso_faithful t ->
  from_dict (to_dict t) = Ok t
  /\ (forall u, iso_faithful u -> to_dict u = to_dict t -> u = t).
Proof.
  intros Ht. split; [by apply from_dict_to_dict|].
  intros u Hu Heq. apply from_dict_to_dict in Hu, Ht.
  rewrite Heq, Ht in Hu. by injection Hu.
Qed.

(** ** Opening the backing file again *)

(** X17: when the backing file holds the listing of a repository whose
    collection is keyed by id with the counter above every id, and whose
    dates and timestamps [fromisoformat] reads back, a repository
    constructed on the same path is returned with every id bound to an
    equal task and with the same listing.  Its counter is 1 when the
    collection is empty; otherwise it is at most the counter of the first
    repository, and equal to it exactly when a task with the id just below
    that counter is still held: after the task added last is deleted, the
    new repository hands out its id again. *)
Theorem reopen_after_save
    (self : TaskRepository) (w : World) (path : string) :
  _storage_path self = Some path ->
  in_sync self w ->
  repo_ok self ->
  Forall iso_faithful (dict_values (_tasks self)) ->
  exists fresh,
    __init__ (Some path) w = (Ok tt, fresh, w)
    /\ (forall k, dict_get k (_tasks fresh) = dict_get k (_tasks self))
    /\ list_tasks fresh None None = list_tasks self None None
    /\ (dict_values (_tasks self) = [] -> _next_id fresh = 1)
    /\ (dict_values (_tasks self) <> [] ->
        _next_id fresh <= _next_id self
        /\ (_next_id fresh = _next_id self
            <-> exists t, t ∈ dict_values (_tasks self)
                          /\ id t = _next_id self - 1)).
Proof.
  intros Hpath Hsync [Hkeyed Hbound] Hiso.
  unfold in_sync in Hsync. rewrite Hpath in Hsync.
  set (listing := list_tasks self None None) in *.
  assert (listing ≡ₚ dict_values (_tasks self)) as Hperm by apply sorted_perm.
  assert (StronglySorted by_id listing) as Hsorted by apply sorted_sorted.
  assert (map id (dict_values (_tasks self)) = dict_keys (_tasks self)) as Hids.
  { rewrite (dict_values_keys_map id (fun k => k)) by apply Hkeyed.
    by rewrite map_id. }
  set (fresh := mkRepo (Some path) (map (fun t => (id t, t)) listing)
                       (next_id_after (map id listing))).
  assert (__init__ (Some path) w = (Ok tt, fresh, w)) as Hinit.
  { assert (Forall iso_faithful listing) as Hisol by (by rewrite Hperm).
    pose proof (load_items listing (Some path) [] 1 w Hisol) as Hloop.
    rewrite foldl_dict_set_fresh in Hloop.
    2:{ simpl. rewrite Hperm. by apply keyed_by_id_NoDup. }
    unfold __init__, _load. revert Hloop. run_m. simpl. rewrite Hsync. simpl.
    intros ->. unfold fresh, dict_keys. simpl. by rewrite map_map. }
  exists fresh. split; [done|]. split; [|split; [|split]].
  - intros k. by apply dict_of_tasks_get.
  - unfold list_tasks at 1. simpl. unfold dict_values.
    rewrite map_map. simpl. rewrite map_id. by apply sorted_id.
  - intros Hnil. simpl. rewrite Hnil in Hperm.
    apply Permutation_nil_r in Hperm. by rewrite Hperm.
  - intros Hne. simpl.
    destruct (next_id_after_spec (map id listing)) as [Hbelow Hmax].
    assert (map id listing ≡ₚ dict_keys (_tasks self)) as Hpermk.
    { rewrite <- Hids. by apply Permutation_map. }
    assert (next_id_after (map id listing) - 1 ∈ dict_keys (_tasks self)) as Hin.
    { rewrite <- Hpermk. apply Hmax. intros Hnil.
      apply map_eq_nil in Hnil. rewrite Hnil in Hperm.
      apply Permutation_nil in Hperm. done. }
    rewrite Forall_forall in Hbound, Hbelow. split.
    + specialize (Hbound _ Hin). simpl in Hbound. lia.
    + split.
      * intros Heq. rewrite Heq, <- Hids in Hin.
        apply list_elem_of_In, in_map_iff in Hin as (t & Ht & Hin).
        exists t. split; [by apply list_elem_of_In | done].
      * intros (t & Ht & Hidt).
        assert (id t ∈ map id listing) as Hint.
        { rewrite Hpermk, <- Hids.
          apply list_elem_of_In, in_map, list_elem_of_In, Ht. }
        specialize (Hbelow _ Hint). specialize (Hbound _ Hin).
        simpl in *. lia.
Qed.

End MoreProperties.

(** * Properties of the command line *)

Section CliProperties.
Context {cal : Calendar} {rt : Builtins}.

Lemma nonempty_false (s : string) : nonempty s = false <-> s = EmptyString.
Proof. by destruct s. Qed.

(** The outcomes of [update_task] when the description is a string or
    [None] and the due date a date or [None], as the command line supplies
    them. *)
Lemma update_task_cases
    (task_id : Z) (ti : option string) (de du : arg pyval) (co : option bool)
    (self : TaskRepository) (w : World) :
  (forall v, de = Supplied v -> exists text, or_empty_strip v = Ok text) ->
  (forall v, du = Supplied v -> v = PyNone \/ exists d, v = PyDate d) ->
  match update_task task_id ti de du co self w with
  | (Raise e, self', w') =>
      self' = self /\ w' = w
      /\ match dict_get task_id (_tasks self) with
         | None => e = KeyError (JInt task_id)
         | Some _ => e = ValueError
                     /\ exists s, ti = Some s /\ strip s = EmptyString
         end
  | (Ok t1, self', w') =>
      exists t0, dict_get task_id (_tasks self) = Some t0
        /\ (forall s, ti = Some s -> strip s <> EmptyString)
        /\ id t1 = id t0
        /\ completed t1 = match co with Some c => c | None => completed t0 end
        /\ dict_get task_id (_tasks self') = Some t1
        /\ (if any_supplied ti de du co
            then updated_at t1 = clock w (ticks w)
                 /\ ticks w' = S (ticks w) /\ in_sync self' w'
            else self' = self /\ w' = w)
  end.
Proof.
  intros Hde Hdu.
  destruct (dict_get task_id (_tasks self)) as [t0|] eqn:Hget.
  2:{ unfold update_task. run_m. by rewrite Hget. }
  assert (forall s, ti = Some s -> nonempty (strip s) = false ->
            update_task task_id ti de du co self w = (Raise ValueError, self, w))
    as Hblank.
  { intros s -> Hs. unfold update_task. run_m. by rewrite Hget, Hs. }
  destruct ti as [s|].
  - destruct (nonempty (strip s)) eqn:Hs.
    2:{ rewrite (Hblank s eq_refl Hs). repeat split.
        exists s. split; [done|]. by apply nonempty_false. }
    clear Hblank.
    (destruct de as [|v]; [clear Hde | destruct (Hde v eq_refl) as [text Htext]]);
    (destruct du as [|v']; [clear Hdu | destruct (Hdu v' eq_refl) as [->|[d ->]]]);
    destruct co as [c|];
    unfold update_task, utcnow, _save, write_json; run_m; rewrite Hget; simpl;
    rewrite ?Hs, ?Htext; simpl.
    all: rewrite ?dict_alter_compose, ?dict_get_alter_eq, ?Hget; simpl.
    all: try (erewrite dict_set_same by (by rewrite dict_get_alter_eq, Hget)).
    all: destruct (_storage_path self) as [path|] eqn:Hpath; simpl.
    all: rewrite ?dict_get_alter_eq, ?Hget; simpl.
    all: eexists; (split; [reflexivity|]); simpl.
    all: unfold in_sync; simpl; rewrite ?Hpath, ?lookup_insert_eq.
    all: rewrite ?dict_get_alter_eq, ?Hget; simpl.
    all: repeat split; try done.
    all: intros s' [= <-] Hs'; by rewrite Hs' in Hs.
  - clear Hblank.
    (destruct de as [|v]; [clear Hde | destruct (Hde v eq_refl) as [text Htext]]);
    (destruct du as [|v']; [clear Hdu | destruct (Hdu v' eq_refl) as [->|[d ->]]]);
    destruct co as [c|];
    unfold update_task, utcnow, _save, write_json; run_m; rewrite Hget; simpl;
    rewrite ?Htext; simpl.
    all: rewrite ?dict_alter_compose, ?dict_get_alter_eq, ?Hget; simpl.
    all: try (erewrite dict_set_same by (by rewrite dict_get_alter_eq, Hget)).
    all: destruct (_storage_path self) as [path|] eqn:Hpath; simpl.
    all: rewrite ?dict_get_alter_eq, ?Hget; simpl.
    all: eexists; (split; [reflexivity|]); simpl.
    all: unfold in_sync; simpl; rewrite ?Hpath, ?lookup_insert_eq.
    all: rewrite ?dict_get_alter_eq, ?Hget; simpl.
    all: repeat split; try done.
Qed.

Lemma kwargs_description_text (d : option string) (c : bool) (v : pyval) :
  main.kwargs_description d c = Supplied v ->
  exists text, or_empty_strip v = Ok text.
Proof.
  unfold main.kwargs_description.
  destruct c; [|destruct d]; intros [= <-]; unfold or_empty_strip;
    destruct (truthy _); by eexists.
Qed.

Lemma kwargs_due_date_typed (d : option date) (c : bool) (v : pyval) :
  main.kwargs_due_date d c = Supplied v ->
  v = PyNone \/ exists d', v = PyDate d'.
Proof.
  unfold main.kwargs_due_date.
  destruct c; [|destruct d]; intros [= <-]; eauto.
Qed.

Lemma sentinel_text (v : pyval) :
  @_SENTINEL pyval = Supplied v -> exists text, or_empty_strip v = Ok text.
Proof. done. Qed.

Lemma sentinel_typed (v : pyval) :
  @_SENTINEL pyval = Supplied v -> v = PyNone \/ exists d, v = PyDate d.
Proof. done. Qed.

Lemma handler_cases (c : main.subcommand) (self : TaskRepository) (w : World) :
  match main.handler c self w with
  | (Raise e, self', w') => self' = self /\ w' = w /\ cause c self e
  | (Ok out, _, _) => out <> []
  end.
Proof.
  destruct c as [co due|ti de due|k ti de cde due cdue|k undo|k]; simpl.
  - unfold main.list_tasks. run_m.
    destruct (list_tasks self _ due); discriminate.
  - unfold main.add_task, add_task, utcnow, _save, write_json. run_m.
    destruct (nonempty (strip ti)) eqn:Hti; simpl.
    + unfold or_empty_strip. destruct (truthy (PyStr de)); simpl;
        destruct (_storage_path self); discriminate.
    + repeat split. by apply nonempty_false.
  - unfold main.update_task.
    pose proof (update_task_cases k ti (main.kwargs_description de cde)
                  (main.kwargs_due_date due cdue) None self w
                  (kwargs_description_text de cde)
                  (kwargs_due_date_typed due cdue)) as Hcases.
    destruct ti as [s|], (main.kwargs_description de cde) as [|v],
             (main.kwargs_due_date due cdue) as [|v'];
      try done;
      revert Hcases; run_m;
      (destruct (update_task k _ _ _ None self w) as [[[t1|e] self'] w'];
       [done|]); by intros (-> & -> & ?).
  - unfold main.set_status.
    pose proof (update_task_cases k None _SENTINEL _SENTINEL
                  (Some (negb undo)) self w sentinel_text sentinel_typed)
      as Hcases.
    revert Hcases. run_m.
    destruct (update_task k None _SENTINEL _SENTINEL _ self w)
      as [[[t1|e] self'] w']; [done|].
    intros (-> & -> & He). repeat split.
    + destruct (dict_get k (_tasks self)); [|done].
      by destruct He as (_ & s & ? & _).
    + destruct (dict_get k (_tasks self)); [|done].
      by destruct He as (_ & s & ? & _).
  - unfold main.delete_task, delete_task, _save, write_json. run_m.
    destruct (dict_get k (_tasks self)) eqn:Hget; simpl.
    + by destruct (_storage_path self).
    + done.
Qed.

(** X18: a command whose handler raises has changed neither the repository
    object nor the world.  [list] never raises; [add] raises only
    [ValueError], for a title that is blank once stripped; [update] raises
    [KeyError] with the id for an id that is not held and otherwise only
    [ValueError] for such a title; [complete] and [delete] raise only
    [KeyError] with the id, for an id that is not held.  No command makes
    the repository raise [TypeError]. *)
Theorem handler_failure_leaves_store
    (c : main.subcommand) (self : TaskRepository) (w : World)
    (e : exn) (self' : TaskRepository) (w' : World) :
  main.handler c self w = (Raise e, self', w') ->
  self' = self /\ w' = w /\ cause c self e /\ e <> TypeError.
Proof.
  intros Hrun. pose proof (handler_cases c self w) as Hcases.
  rewrite Hrun in Hcases. destruct Hcases as (-> & -> & Hcause).
  repeat split; [done|].
  intros ->. destruct c as [| | k ? ? ? ? ?| |]; simpl in Hcause;
    try (by destruct Hcause).
  destruct (dict_get k (_tasks self)); [by destruct Hcause|done].
Qed.

(** X19: [main] lets an exception of the constructor escape, with nothing
    printed.  Once the repository is constructed [main] returns: 0 with at
    least one line on standard output and none on standard error, or 1 with
    exactly one line on standard error, none on standard output and the
    world as it was.  The constructor itself changes nothing in the world. *)
Theorem main_outcome (args : main.Namespace) (w : World) :
  match __init__ (Some (main.storage args)) w with
  | (Raise e, _, _) => main.main args w = (Raise e, [], [], w)
  | (Ok _, _, _) =>
      exists code out err w',
        main.main args w = (Ok code, out, err, w')
        /\ (code = 0 /\ out <> [] /\ err = []
            \/ code = 1 /\ out = [] /\ List.length err = 1%nat /\ w' = w)
  end.
Proof.
  unfold main.main.
  pose proof (load_world_unchanged (Some (main.storage args)) w
                (mkRepo (Some (main.storage args)) [] 1) w
                (conj eq_refl eq_refl)) as Hload.
  unfold __init__.
  destruct (_load _ w) as [[[[]|e] self] w0]; destruct Hload as [_ ->];
    [|done].
  pose proof (handler_cases (main.command args) self w) as Hcases.
  destruct (main.handler (main.command args) self w)
    as [[[out|e] self'] w'].
  - exists 0, out, [], w'. split; [done|]. by left.
  - destruct Hcases as (-> & -> & Hcause).
    destruct e; try (eexists 1, [], [_], w; split; [done|]; by right).
    exfalso. destruct (main.command args) as [| | k ? ? ? ? ?| |];
      simpl in Hcause; try (by destruct Hcause).
    destruct (dict_get k (_tasks self)); [by destruct Hcause|done].
Qed.

(** X20: [update] for an id that is not held fails with [KeyError] as soon
    as one option is given, and without any option prints that there is
    nothing to change and succeeds: the repository is not consulted
    then. *)
Theorem cli_update_unknown_id
    (task_id : Z) (ti de : option string) (cde : bool) (due : option date)
    (cdue : bool) (self : TaskRepository) (w : World) :
  dict_get task_id (_tasks self) = None ->
  main.update_task task_id ti de cde due cdue self w
  = (match ti, de, cde, due, cdue with
     | None, None, false, None, false =>
         Ok [literal "Нет изменений для применения."]
     | _, _, _, _, _ => Raise (KeyError (JInt task_id))
     end, self, w).
Proof.
  intros Hget.
  assert (forall a b c d, update_task task_id a b c d self w
                          = (Raise (KeyError (JInt task_id)), self, w))
    as Hraise.
  { intros. unfold update_task. run_m. by rewrite Hget. }
  unfold main.update_task, main.kwargs_description, main.kwargs_due_date.
  destruct ti, de, cde, due, cdue; try done; run_m; by rewrite Hraise.
Qed.

(** X21: [complete] on a held task returns, whatever the status of the task
    was: afterwards the task has [completed] set as asked, [updated_at] is
    the clock reading, the backing file holds the new listing, and the line
    printed names the id of the task and the status now held. *)
Theorem set_status_on_held_task
    (task_id : Z) (undo : bool) (t0 : Task) (self : TaskRepository)
    (w : World) :
  dict_get task_id (_tasks self) = Some t0 ->
  exists t1 self' w',
    main.set_status task_id undo self w
    = (Ok [literal "Задача #" ++ main.str_int (id t0) ++ literal " "
           ++ (if undo then literal "возвращена в работу"
               else literal "выполнена") ++ literal "."], self', w')
    /\ dict_get task_id (_tasks self') = Some t1
    /\ completed t1 = negb undo
    /\ updated_at t1 = clock w (ticks w)
    /\ ticks w' = S (ticks w)
    /\ in_sync self' w'.
Proof.
  intros Hget. unfold main.set_status.
  pose proof (update_task_cases task_id None _SENTINEL _SENTINEL
                (Some (negb undo)) self w sentinel_text sentinel_typed)
    as Hcases.
  revert Hcases. run_m.
  destruct (update_task task_id None _SENTINEL _SENTINEL _ self w)
    as [[[t1|e] self'] w'].
  - intros (t & Ht & _ & Hid & Hco & Hget' & Hup & Hticks & Hsync).
    rewrite Hget in Ht. injection Ht as <-.
    exists t1, self', w'. rewrite Hid, Hco. by destruct undo.
  - rewrite Hget. by intros (_ & _ & _ & s & ? & _).
Qed.

(** X22: two runs of the program share the file only.  On a path at which
    there is no file, [add] with a title that is not blank creates task 1
    and reports it; a following [list] on the world that run left prints
    exactly that task, provided the due date and the clock reading are
    given back by [fromisoformat] from their [isoformat()] text. *)
Theorem add_then_list_in_two_runs
    (path title description : string) (due : option date) (w : World) :
  files w !! path = None ->
  strip title <> EmptyString ->
  iso_faithful (mkTask 1 (strip title) (strip description) false due
                       (clock w (ticks w)) (clock w (ticks w))) ->
  exists w1,
    main.main (main.mkNamespace path (main.Cmd_add title description due)) w
    = (Ok 0, [literal "Создана задача #" ++ main.str_int 1 ++ literal ": "
              ++ of_str (strip title)], [], w1)
    /\ main.main (main.mkNamespace path (main.Cmd_list "all" None)) w1
       = (Ok 0, [main.format_task
                   (mkTask 1 (strip title) (strip description) false due
                           (clock w (ticks w)) (clock w (ticks w)))], [], w1).
Proof.
  set (task := mkTask 1 (strip title) (strip description) false due
                      (clock w (ticks w)) (clock w (ticks w))).
  intros Hfile Htitle Hiso.
  assert (nonempty (strip title) = true) as Hne.
  { destruct (nonempty (strip title)) eqn:E; [done|].
    by apply nonempty_false in E. }
  assert (or_empty_strip (PyStr description) = Ok (strip description))
    as Hdesc.
  { unfold or_empty_strip. by destruct description. }
  set (w1 := mkWorld (<[path := Document (JList [to_dict task])]> (files w))
                     (journal w ++ [(path, JList [to_dict task])])
                     (clock w) (S (ticks w))).
  exists w1. split.
  - unfold main.main, __init__, _load. run_m. simpl. rewrite Hfile. simpl.
    unfold main.add_task, add_task, utcnow, _save, write_json. run_m.
    rewrite Hne, Hdesc. simpl. done.
  - pose proof (load_items [task] (Some path) [] 1 w1
                  (Forall_cons_2 _ _ _ Hiso (Forall_nil_2 _))) as Hloop.
    unfold main.main, __init__, _load. revert Hloop. run_m. simpl.
    rewrite lookup_insert_eq. simpl. intros ->. simpl.
    unfold main.list_tasks. run_m. done.
Qed.

End CliProperties.

(** ** Runs of the further properties *)

Lemma sample_one_ok : repo_ok Sample.one_task.
Proof.
  split; [split|].
  - apply NoDup_singleton.
  - by repeat constructor.
  - by repeat constructor.
Qed.

Lemma sample_two_ok : repo_ok Sample.two_tasks.
Proof.
  split; [exact sample_keyed_by_id|]. by repeat constructor.
Qed.

Lemma add_task_success_run :
  repo_ok Sample.one_task
  /\ exists self' w',
       add_task "  Write docs " (PyStr " today ") None
                Sample.one_task Sample.empty_world
       = (Ok MoreSample.docs, self', w')
       /\ _next_id self' = 3
       /\ dict_get 2 (_tasks self') = Some MoreSample.docs
       /\ (forall k, k <> 2 -> dict_get k (_tasks self')
                                = dict_get k (_tasks Sample.one_task))
       /\ list_tasks self' None None
          = list_tasks Sample.one_task None None ++ [MoreSample.docs]
       /\ ticks w' = 1%nat
       /\ in_sync self' w'.
Proof.
  split; [exact sample_one_ok|].
  apply (@add_task_success CPython.calendar CPython.runtime
           "  Write docs " (PyStr " today ") "today" None
           Sample.one_task Sample.empty_world).
  - reflexivity.
  - reflexivity.
  - exact sample_one_ok.
Defined.

Lemma update_task_success_run :
  dict_get 1 (_tasks Sample.one_task) = Some Sample.report
  /\ exists t1 self' w',
       update_task 1 (Some " Final report ") (Supplied PyNone)
                   (Supplied (PyDate MoreSample.first_of_july)) (Some true)
                   Sample.one_task Sample.empty_world
       = (Ok t1, self', w')
       /\ id t1 = 1 /\ created_at t1 = Sample.noon 0 0
       /\ title t1 = "Final report"
       /\ or_empty_strip PyNone = Ok (description t1)
       /\ due_date t1 = Some MoreSample.first_of_july
       /\ completed t1 = true
       /\ updated_at t1 = Sample.noon 0 0
       /\ dict_get 1 (_tasks self') = Some t1
       /\ (forall k, k <> 1 -> dict_get k (_tasks self')
                                = dict_get k (_tasks Sample.one_task))
       /\ ticks w' = 1%nat /\ in_sync self' w'.
Proof.
  split; [reflexivity|].
  apply (@update_task_success CPython.calendar CPython.runtime
           1 Sample.report (Some " Final report ") (Supplied PyNone)
           (Supplied (PyDate MoreSample.first_of_july)) (Some true)
           Sample.one_task Sample.empty_world).
  - reflexivity.
  - intros s [= <-]. reflexivity.
  - intros v [= <-]. exists EmptyString. reflexivity.
  - intros v [= <-]. right. eexists. reflexivity.
Defined.

Lemma update_task_rejected_early_run :
  dict_get 7 (_tasks Sample.one_task) = None
  /\ update_task 7 (Some "Renamed") _SENTINEL (Supplied (PyStr "tomorrow")) None
                 Sample.one_task Sample.empty_world
     = (Raise (KeyError (JInt 7)), Sample.one_task, Sample.empty_world).
Proof.
  split; [reflexivity|].
  apply (@update_task_rejected_early CPython.calendar CPython.runtime
           7 (Some "Renamed") _SENTINEL (Supplied (PyStr "tomorrow")) None
           Sample.one_task Sample.empty_world).
  left. reflexivity.
Defined.

Lemma update_task_failure_effects_run :
  update_task 1 (Some "Renamed") _SENTINEL (Supplied (PyStr "2024-01-01")) None
              Sample.one_task Sample.empty_world
  = (Raise TypeError,
     mkRepo (Some "tasks.json") [(1, set_title "Renamed" Sample.report)] 2,
     Sample.empty_world)
  /\ (Sample.empty_world = Sample.empty_world
      /\ forall t1,
           dict_get 1 [(1, set_title "Renamed" Sample.report)] = Some t1 ->
           exists t0, dict_get 1 (_tasks Sample.one_task) = Some t0
                      /\ completed t1 = completed t0
                      /\ due_date t1 = due_date t0
                      /\ created_at t1 = created_at t0
                      /\ updated_at t1 = updated_at t0).
Proof.
  split; [vm_compute; reflexivity|].
  apply (@update_task_failure_effects CPython.calendar CPython.runtime
           1 (Some "Renamed") _SENTINEL (Supplied (PyStr "2024-01-01")) None
           Sample.one_task Sample.empty_world TypeError
           (mkRepo (Some "tasks.json") [(1, set_title "Renamed" Sample.report)] 2)
           Sample.empty_world).
  vm_compute. reflexivity.
Defined.

Lemma list_tasks_of_keyed_collection_run :
  keyed_by_id (_tasks Sample.two_tasks)
  /\ StronglySorted (fun a b => id a < id b)
                    (list_tasks Sample.two_tasks None None)
  /\ (forall t, t ∈ list_tasks Sample.two_tasks None None
                <-> dict_get (id t) (_tasks Sample.two_tasks) = Some t).
Proof.
  split; [exact sample_keyed_by_id|].
  apply (@list_tasks_of_keyed_collection CPython.calendar CPython.runtime
           Sample.two_tasks).
  exact sample_keyed_by_id.
Defined.

Lemma delete_task_success_run :
  dict_get 1 (_tasks Sample.two_tasks) = Some Sample.report
  /\ exists self' w',
       delete_task 1 Sample.two_tasks Sample.empty_world = (Ok tt, self', w')
       /\ get_task 1 self' w' = (Raise (KeyError (JInt 1)), self', w')
       /\ (forall k, k <> 1 -> dict_get k (_tasks self')
                                = dict_get k (_tasks Sample.two_tasks))
       /\ _next_id self' = 3
       /\ list_tasks self' None None
          = List.filter (fun t => negb (id t =? 1))
                        (list_tasks Sample.two_tasks None None)
       /\ in_sync self' w'.
Proof.
  split; [reflexivity|].
  apply (@delete_task_success CPython.calendar CPython.runtime
           1 Sample.report Sample.two_tasks Sample.empty_world).
  - exact sample_keyed_by_id.
  - reflexivity.
Defined.

Lemma load_top_level_run :
  files MoreSample.scalar_world !! "tasks.json" = Some (Document (JInt 5))
  /\ __init__ (Some "tasks.json") MoreSample.scalar_world
     = (Raise TypeError, mkRepo (Some "tasks.json") [] 1,
        MoreSample.scalar_world).
Proof.
  split; [vm_compute; reflexivity|].
  apply (@load_top_level CPython.calendar CPython.runtime
           "tasks.json" MoreSample.scalar_world (Document (JInt 5))).
  - vm_compute. reflexivity.
  - intros item rest. discriminate.
Defined.

Lemma load_stops_at_rejected_record_run :
  from_dict (JObj Sample.report_members) = Ok Sample.report
  /\ from_dict (JObj [("id", JInt 2)]) = Raise (KeyError (JStr "title"))
  /\ exists self',
       __init__ (Some "tasks.json") MoreSample.broken_world
       = (Raise (KeyError (JStr "title")), self', MoreSample.broken_world).
Proof.
  split; [reflexivity|]. split; [reflexivity|].
  apply (@load_stops_at_rejected_record CPython.calendar CPython.runtime
           "tasks.json" MoreSample.broken_world
           [JObj Sample.report_members] [JObj Sample.release_members]
           (JObj [("id", JInt 2)]) (KeyError (JStr "title"))).
  - vm_compute. reflexivity.
  - constructor; [|constructor]. exists Sample.report. reflexivity.
  - reflexivity.
Defined.

Lemma load_keeps_last_record_run :
  read_all [JObj Sample.report_members;
            JObj (dict_set "title" (JStr "Prepare report again")
                           Sample.report_members)]
  = Ok [Sample.report; MoreSample.second_report]
  /\ last_with_id 1 [Sample.report; MoreSample.second_report]
     = Some MoreSample.second_report
  /\ exists self,
       __init__ (Some "tasks.json") MoreSample.duplicate_world
       = (Ok tt, self, MoreSample.duplicate_world)
       /\ (forall k, dict_get k (_tasks self)
                     = last_with_id k [Sample.report; MoreSample.second_report])
       /\ keyed_by_id (_tasks self).
Proof.
  split; [reflexivity|]. split; [reflexivity|].
  apply (@load_keeps_last_record CPython.calendar CPython.runtime
           "tasks.json" MoreSample.duplicate_world
           [JObj Sample.report_members;
            JObj (dict_set "title" (JStr "Prepare report again")
                           Sample.report_members)]
           [Sample.report; MoreSample.second_report]).
  - vm_compute. reflexivity.
  - reflexivity.
Defined.

Lemma from_dict_required_members_run :
  from_dict (JObj Sample.release_members) = Ok Sample.release
  /\ exists members v_id v_title c u,
       JObj Sample.release_members = JObj members
       /\ dict_get "id" members = Some v_id /\ py_int v_id = Ok 2
       /\ dict_get "title" members = Some v_title
       /\ "Plan release" = py_str v_title
       /\ EmptyString = match dict_get "description" members with
                        | Some v => py_str v
                        | None => EmptyString
                        end
       /\ dict_get "created_at" members = Some (JStr c)
       /\ dict_get "updated_at" members = Some (JStr u).
Proof.
  split; [reflexivity|].
  apply (@from_dict_required_members CPython.calendar CPython.runtime
           (JObj Sample.release_members) Sample.release).
  reflexivity.
Defined.

Lemma task_record_round_trip_run :
  iso_faithful Sample.report
  /\ from_dict (to_dict Sample.report) = Ok Sample.report
  /\ (forall u, iso_faithful u -> to_dict u = to_dict Sample.report ->
                u = Sample.report).
Proof.
  assert (iso_faithful Sample.report) as Hiso by (by repeat split).
  split; [exact Hiso|].
  apply (@task_record_round_trip CPython.calendar CPython.runtime
           Sample.report Hiso).
Defined.

Lemma reopen_after_save_run :
  in_sync Sample.two_tasks Sample.saved_world
  /\ exists fresh,
       __init__ (Some "tasks.json") Sample.saved_world
       = (Ok tt, fresh, Sample.saved_world)
       /\ (forall k, dict_get k (_tasks fresh)
                     = dict_get k (_tasks Sample.two_tasks))
       /\ list_tasks fresh None None = list_tasks Sample.two_tasks None None
       /\ (dict_values (_tasks Sample.two_tasks) = [] -> _next_id fresh = 1)
       /\ (dict_values (_tasks Sample.two_tasks) <> [] ->
           _next_id fresh <= 3
           /\ (_next_id fresh = 3
               <-> exists t, t ∈ dict_values (_tasks Sample.two_tasks)
                             /\ id t = 3 - 1)).
Proof.
  assert (in_sync Sample.two_tasks Sample.saved_world) as Hsync
    by (vm_compute; reflexivity).
  split; [exact Hsync|].
  apply (@reopen_after_save CPython.calendar CPython.runtime
           Sample.two_tasks Sample.saved_world "tasks.json").
  - reflexivity.
  - exact Hsync.
  - exact sample_two_ok.
  - exact sample_iso_faithful.
Defined.

Lemma handler_failure_leaves_store_run :
  main.handler (main.Cmd_delete 7) Sample.one_task Sample.empty_world
  = (Raise (KeyError (JInt 7)), Sample.one_task, Sample.empty_world)
  /\ (Sample.one_task = Sample.one_task
      /\ Sample.empty_world = Sample.empty_world
      /\ cause (main.Cmd_delete 7) Sample.one_task (KeyError (JInt 7))
      /\ KeyError (JInt 7) <> TypeError).
Proof.
  split; [reflexivity|].
  apply (@handler_failure_leaves_store CPython.calendar CPython.runtime
           (main.Cmd_delete 7) Sample.one_task Sample.empty_world).
  reflexivity.
Defined.

Lemma cli_update_unknown_id_run :
  dict_get 7 (_tasks Sample.one_task) = None
  /\ main.update_task 7 None None true None false
                      Sample.one_task Sample.empty_world
     = (Raise (KeyError (JInt 7)), Sample.one_task, Sample.empty_world)
  /\ main.update_task 7 None None false None false
                      Sample.one_task Sample.empty_world
     = (Ok [literal "Нет изменений для применения."],
        Sample.one_task, Sample.empty_world).
Proof.
  split; [reflexivity|]. split.
  - apply (@cli_update_unknown_id CPython.calendar CPython.runtime
             7 None None true None false Sample.one_task Sample.empty_world).
    reflexivity.
  - apply (@cli_update_unknown_id CPython.calendar CPython.runtime
             7 None None false None false Sample.one_task Sample.empty_world).
    reflexivity.
Defined.

Lemma set_status_on_held_task_run :
  dict_get 1 (_tasks Sample.one_task) = Some Sample.report
  /\ exists t1 self' w',
       main.set_status 1 false Sample.one_task Sample.empty_world
       = (Ok [literal "Задача #1 выполнена."], self', w')
       /\ dict_get 1 (_tasks self') = Some t1
       /\ completed t1 = true
       /\ updated_at t1 = Sample.noon 0 0
       /\ ticks w' = 1%nat
       /\ in_sync self' w'.
Proof.
  split; [reflexivity|].
  apply (@set_status_on_held_task CPython.calendar CPython.runtime
           1 false Sample.report Sample.one_task Sample.empty_world).
  reflexivity.
Defined.

Lemma add_then_list_in_two_runs_run :
  files Sample.empty_world !! "tasks.json" = None
  /\ exists w1,
       main.main (main.mkNamespace "tasks.json"
                    (main.Cmd_add " Write docs " EmptyString None))
                 Sample.empty_world
       = (Ok 0, [literal "Создана задача #1: Write docs"], [], w1)
       /\ main.main (main.mkNamespace "tasks.json" (main.Cmd_list "all" None)) w1
          = (Ok 0, [literal "[1] Write docs (due: —) [✗]"], [], w1).
Proof.
  split; [vm_compute; reflexivity|].
  apply (@add_then_list_in_two_runs CPython.calendar CPython.runtime
           "tasks.json" " Write docs " EmptyString None Sample.empty_world).
  - vm_compute. reflexivity.
  - discriminate.
  - by repeat split.
Defined.
